(** * SlimFlix front-end glue: a shallow embedding of [static/js/scripts.js]
    and of the page script with the season toggles and the admin settings
    forms, with the properties of their request/response handling. *)

From Stdlib Require Import NArith Lia Bool String Ascii.
From Stdlib Require Import Floats.SpecFloat.
From stdpp Require Import base option list gmap.

Local Open Scope nat_scope.
Set Warnings "-register-all".

(** ** The fragment of JavaScript the scripts rely on *)

Module JS.

(** A JavaScript string is a sequence of UTF-16 code units; [length] is
    the [.length] property. *)
Definition jsstring := list N.

(** An ASCII literal of the source as a JavaScript string. *)
Definition str (s : string) : jsstring :=
  map N_of_ascii (list_ascii_of_string s).
Arguments str : simpl never.

(** WhiteSpace and LineTerminator code units of ECMAScript, the ones
    [String.prototype.trim] strips. *)
Definition is_white_space (c : N) : bool :=
  ((c =? 9) || (c =? 10) || (c =? 11) || (c =? 12) || (c =? 13) ||
   (c =? 32) || (c =? 160) || (c =? 5760) ||
   ((8192 <=? c) && (c <=? 8202)) ||
   (c =? 8232) || (c =? 8233) || (c =? 8239) || (c =? 8287) ||
   (c =? 12288) || (c =? 65279))%N.

Fixpoint trim_start (s : jsstring) : jsstring :=
  match s with
  | c :: s' => if is_white_space c then trim_start s' else s
  | [] => []
  end.

Definition trim_end (s : jsstring) : jsstring := rev (trim_start (rev s)).

Definition trim (s : jsstring) : jsstring := trim_end (trim_start s).

(** Values a decoded JSON body can be, plus [undefined] for absent
    properties.  Numbers are IEEE binary64. *)
Inductive value :=
| Undefined
| Null
| Bool (b : bool)
| Num (x : spec_float)
| Str (s : jsstring)
| Arr (items : list value)
| Obj (props : list (jsstring * value)).

(** ToBoolean. *)
Definition truthy (v : value) : bool :=
  match v with
  | Undefined | Null => false
  | Bool b => b
  | Num (S754_zero _) | Num S754_nan => false
  | Num _ => true
  | Str s => negb (bool_decide (s = []))
  | Arr _ | Obj _ => true
  end.

(** What is thrown or what a promise rejects with. *)
Inductive exn :=
| TypeError (msg : string)
| SyntaxError (msg : string)
| DOMException (name : string).

Inductive result (A : Type) :=
| Ok (a : A)
| Throw (e : exn).
Arguments Ok {A} a.
Arguments Throw {A} e.

(** The properties of a decoded object have distinct names. *)
Fixpoint own_property (k : jsstring) (props : list (jsstring * value))
  : option value :=
  match props with
  | (k', v) :: rest => if bool_decide (k' = k) then Some v
                       else own_property k rest
  | [] => None
  end.

(** [v.k] for a property name [k] that no prototype defines (such as
    [error], [success] and [message]): a TypeError on [null] and
    [undefined], the own property of an object, [undefined] otherwise. *)
Definition get (v : value) (k : string) : result value :=
  match v with
  | Undefined | Null => Throw (TypeError "Cannot read properties")
  | Obj props => Ok (default Undefined (own_property (str k) props))
  | _ => Ok Undefined
  end.

(** *** Requests and the outcome of [fetch] followed by [res.json()] *)

Inductive body :=
| NoBody
| FormData (entries : list (string * jsstring))
| JSON_stringify (v : value).

Record request := Request {
  req_method : string;
  req_url : jsstring;
  req_headers : list (string * string);
  req_body : body
}.

(** A response is kept as what [res.json()] will make of it. *)
Inductive response :=
| Malformed (e : exn)
| Decoded (v : value).

Inductive outcome :=
| Rejected (e : exn)
| Responded (res : response).

(** *** The world a script runs in *)

Inductive reaction := OnFulfilled | OnRejected | OnFinally.

#[global] Instance reaction_eq_dec : EqDecision reaction.
Proof. solve_decision. Defined.

(** [this] (or the page), the console, the requests issued so far, and
    a ghost record of which promise reactions have run, each tagged
    with the request its promise chain started from. *)
Record world (S : Type) := World {
  self : S;
  console : list (string * exn);
  network : list request;
  reactions : list (nat * reaction)
}.
Arguments World {S}.
Arguments self {S}.
Arguments console {S}.
Arguments network {S}.
Arguments reactions {S}.

Definition M (S A : Type) : Type := world S -> result A * world S.

Definition ret {S A} (a : A) : M S A := fun w => (Ok a, w).
Definition throw {S A} (e : exn) : M S A := fun w => (Throw e, w).
Definition bind {S A B} (m : M S A) (k : A -> M S B) : M S B :=
  fun w => match m w with
           | (Ok a, w') => k a w'
           | (Throw e, w') => (Throw e, w')
           end.
Definition lift {S A} (r : result A) : M S A := fun w => (r, w).

Definition modify {S} (f : S -> S) : M S unit :=
  fun w => (Ok tt, World (f (self w)) (console w) (network w) (reactions w)).
Definition read {S A} (f : S -> A) : M S A := fun w => (Ok (f (self w)), w).

Definition console_error {S} (label : string) (e : exn) : M S unit :=
  fun w => (Ok tt, World (self w) (console w ++ [(label, e)]) (network w)
                         (reactions w)).

(** [fetch(...)]: the request leaves, and is identified from then on by
    its position in the log. *)
Definition fetch {S} (r : request) : M S nat :=
  fun w => (Ok (length (network w)),
            World (self w) (console w) (network w ++ [r]) (reactions w)).

Definition ran {S} (rid : nat) (k : reaction) : M S unit :=
  fun w => (Ok tt, World (self w) (console w) (network w)
                         (reactions w ++ [(rid, k)])).

(** *** Promises *)

(** A promise derived from the fetch of request [origin]; [settle] is
    what runs once that request settles. *)
Record promise (S A : Type) := Promise {
  origin : nat;
  settle : M S A
}.
Arguments Promise {S A}.
Arguments origin {S A}.
Arguments settle {S A}.

Definition fetched {S} (rid : nat) (o : outcome) : promise S response :=
  Promise rid (match o with
               | Rejected e => throw e
               | Responded res => ret res
               end).

(** [res.json()] *)
Definition json {S} (res : response) : M S value :=
  match res with
  | Malformed e => throw e
  | Decoded v => ret v
  end.

(** [p.then(f)] *)
Definition then_ {S A B} (p : promise S A) (f : A -> M S B) : promise S B :=
  Promise (origin p)
    (fun w => match settle p w with
              | (Ok a, w') => bind (ran (origin p) OnFulfilled) (fun _ => f a) w'
              | (Throw e, w') => (Throw e, w')
              end).

(** [p.catch(f)] *)
Definition catch_ {S A} (p : promise S A) (f : exn -> M S A) : promise S A :=
  Promise (origin p)
    (fun w => match settle p w with
              | (Ok a, w') => (Ok a, w')
              | (Throw e, w') => bind (ran (origin p) OnRejected) (fun _ => f e) w'
              end).

(** [p.finally(f)]: [f] runs on either outcome, which is passed on
    unless [f] itself throws. *)
Definition finally_ {S A B} (p : promise S A) (f : M S B) : promise S A :=
  Promise (origin p)
    (fun w => match settle p w with
              | (r, w') =>
                  match bind (ran (origin p) OnFinally) (fun _ => f) w' with
                  | (Ok _, w'') => (r, w'')
                  | (Throw e, w'') => (Throw e, w'')
                  end
              end).

Definition finalizations {S} (rid : nat) (w : world S) : nat :=
  length (filter (fun x => x = (rid, OnFinally)) (reactions w)).

End JS.

Declare Scope js_scope.
Delimit Scope js_scope with js.
Notation "'let*' x ':=' m 'in' k" := (JS.bind m (fun x => k))
  (at level 10, x name, m at level 100, k at level 200) : js_scope.
Notation "m ';;' k" := (JS.bind m (fun _ => k))
  (at level 100, k at level 200, right associativity) : js_scope.

Local Open Scope js_scope.

(** ** [static/js/scripts.js]: the Alpine.js data functions *)

Module Search.
Import JS.

Record data := Data {
  query : jsstring;
  results : value;
  loading : bool;
  searched : bool
}.

Definition set_query (q : jsstring) (d : data) : data :=
  Data q (results d) (loading d) (searched d).
Definition set_results (r : value) (d : data) : data :=
  Data (query d) r (loading d) (searched d).
Definition set_loading (b : bool) (d : data) : data :=
  Data (query d) (results d) b (searched d).
Definition set_searched (b : bool) (d : data) : data :=
  Data (query d) (results d) (loading d) b.

(** [jackettSearch()] *)
Definition jackettSearch : data :=
  Data [] (Arr []) false false.

Definition search_request (q : jsstring) : request :=
  Request "POST" (str "/search_jackett") []
          (FormData [("query"%string, q); ("media_type"%string, str "all")]).

(** The synchronous part of [search()]; the chain it hangs on the fetch
    is [search_chain] below, which the loop runs when the request
    settles. *)
Definition search : M data unit :=
  let* q := read query in
  if length (trim q) <? 3
  then modify (set_results (Arr [])) ;; modify (set_searched false) ;; ret tt
  else modify (set_loading true) ;; modify (set_searched true) ;;
       let* _ := fetch (search_request q) in ret tt.

(** What the page does to the widget: the [x-model] binding writes
    [query], and the form calls [search()]. *)
Inductive method :=
| SetQuery (q : jsstring)
| CallSearch.

Definition call (m : method) : M data unit :=
  match m with
  | SetQuery q => modify (set_query q)
  | CallSearch => search
  end.

(** [data => this.results = data.error ? [] : data] *)
Definition on_data (d : value) : M data value :=
  let* e := lift (get d "error") in
  let r := if truthy e then Arr [] else d in
  modify (set_results r) ;; ret r.

(** The chain hung on the fetch of request [rid], run on its outcome. *)
Definition search_chain (rid : nat) (o : outcome) : promise data value :=
  finally_
    (catch_
       (then_ (then_ (fetched rid o) json) on_data)
       (fun err => console_error "Fetch Error:" err ;; ret Undefined))
    (modify (set_loading false) ;; ret false).

End Search.

Module Media.
Import JS.

Record data := Data {
  results : value;
  loading : bool
}.

Definition set_results (r : value) (d : data) : data := Data r (loading d).
Definition set_loading (b : bool) (d : data) : data := Data (results d) b.

(** [availableMedia(mediaType, limit)]; the arguments are taken as the
    strings the URL template interpolates. *)
Definition availableMedia (mediaType limit : jsstring) : data :=
  Data (Arr []) true.

Definition available_url (mediaType limit : jsstring) : jsstring :=
  str "/jackett_available/" ++ mediaType ++ str "?limit=" ++ limit.

(** [recentMedia(mediaType)] *)
Definition recentMedia (mediaType : jsstring) : data :=
  Data (Arr []) true.

Definition recent_url (mediaType : jsstring) : jsstring :=
  str "/jackett_recent/" ++ mediaType.

(** [fetch(url)] without options is a GET. *)
Definition get_request (url : jsstring) : request :=
  Request "GET" url [] NoBody.

(** The synchronous part of [init()] of either widget; the chain is
    [init_chain] below. *)
Definition availableMedia_init (mediaType limit : jsstring) : M data unit :=
  let* _ := fetch (get_request (available_url mediaType limit)) in ret tt.

Definition recentMedia_init (mediaType : jsstring) : M data unit :=
  let* _ := fetch (get_request (recent_url mediaType)) in ret tt.

Definition on_data (d : value) : M data value :=
  let* e := lift (get d "error") in
  let r := if truthy e then Arr [] else d in
  modify (set_results r) ;; ret r.

(** Both [init()] bodies hang the same chain on their fetch. *)
Definition init_chain (rid : nat) (o : outcome) : promise data value :=
  finally_
    (catch_
       (then_ (then_ (fetched rid o) json) on_data)
       (fun err => console_error "Fetch Error:" err ;; ret Undefined))
    (modify (set_loading false) ;; ret false).

End Media.

(** ** The event loop around one widget

    A widget lives in a single-threaded loop: its methods are called, and
    every request it has issued settles at most once, at which point the
    chain hung on it runs to completion. *)

Module Loop.
Import JS.

Section Loop.
Context {S Method : Type}.
Variable call : Method -> M S unit.
Variable chain : nat -> outcome -> promise S value.

Record state := State {
  now : world S;
  settled : gset nat
}.

Inductive event :=
| Call (m : Method)
| Settle (rid : nat) (o : outcome).

Definition in_flight (st : state) (rid : nat) : Prop :=
  rid < length (network (now st)) ∧ rid ∉ settled st.

(** An uncaught exception of a method or of a chain ends that job and
    leaves the effects it had so far. *)
Definition step (ev : event) (st : state) : option state :=
  match ev with
  | Call m => Some (State (call m (now st)).2 (settled st))
  | Settle rid o =>
      if decide (in_flight st rid)
      then Some (State ((settle (chain rid o)) (now st)).2
                       ({[rid]} ∪ settled st))
      else None
  end.

Fixpoint run (evs : list event) (st : state) : option state :=
  match evs with
  | [] => Some st
  | ev :: evs' => match step ev st with
                  | Some st' => run evs' st'
                  | None => None
                  end
  end.

Definition boot (d : S) : state := State (World d [] [] []) ∅.

(** Every request has been finalized once if it has settled, and not
    at all otherwise. *)
Definition accounted (st : state) : Prop :=
  forall rid, finalizations rid (now st) =
              if decide (rid ∈ settled st) then 1 else 0.

End Loop.

Arguments state : clear implicits.
Arguments event : clear implicits.
End Loop.

(** ** The page script: season toggles and the admin settings forms *)

Module Page.
Import JS.

(** An element, as far as a selector and the toggles look at it.  Its
    [style] attribute is kept apart from the others, as the one
    declaration of it that the script reads and writes: [attributes]
    are the attributes other than [style], and [display] is
    [style.display]. *)
Record element := Element {
  tagName : jsstring;
  attributes : list (jsstring * jsstring);
  display : jsstring   (* [style.display] *)
}.

(** What the browser provides and the script only calls: the CSS
    selector engine and the conversion of a number to a string. *)
Class Browser := {
  selector_valid : jsstring -> bool;
  selector_matches : jsstring -> element -> bool;
  number_to_string : spec_float -> jsstring
}.

(** [e.style.display = d]: the write goes to the inline style, which
    here is the [display] field; the other attributes are not
    written. *)
Definition set_display (d : jsstring) (e : element) : element :=
  Element (tagName e) (attributes e) d.

(** Shown or hidden, as the toggle itself tells them apart. *)
Definition hidden (e : element) : bool :=
  bool_decide (display e = str "none").

Fixpoint getAttribute (e : list (jsstring * jsstring)) (name : jsstring)
  : option jsstring :=
  match e with
  | (k, v) :: rest => if bool_decide (k = name) then Some v
                      else getAttribute rest name
  | [] => None
  end.

Record button := Button {
  textContent : jsstring;
  disabled : bool
}.

(** A settings form, as far as the script looks into it: the first
    [button[type="submit"]] under it, if there is one. *)
Record form := Form { submit_button : option button }.

Inductive form_id := jackett_settings_form | qbittorrent_settings_form.

#[global] Instance form_id_eq_dec : EqDecision form_id.
Proof. solve_decision. Defined.

(** The variables the three callbacks of one [saveSettings] call close
    over; [notificationArea] is the one element of that id. *)
Record closure := Closure {
  cl_form : form_id;
  originalButtonText : jsstring
}.

Inductive task := ClearNotifications.

Record page := Page {
  elements : list element;
  inputs : gmap string jsstring;           (* [.value] by element id *)
  jackettForm : option form;
  qbitForm : option form;
  notificationArea : option jsstring;      (* its [innerHTML] *)
  toggle_listeners : list nat;
  submit_listeners : list form_id;
  pending : gmap nat closure;
  timers : list (N * task);                (* due time, callback *)
  clock : N                                (* milliseconds *)
}.

Definition with_elements (f : list element -> list element) (p : page) :=
  Page (f (elements p)) (inputs p) (jackettForm p) (qbitForm p)
       (notificationArea p) (toggle_listeners p) (submit_listeners p)
       (pending p) (timers p) (clock p).
Definition with_inputs (f : gmap string jsstring -> gmap string jsstring)
           (p : page) :=
  Page (elements p) (f (inputs p)) (jackettForm p) (qbitForm p)
       (notificationArea p) (toggle_listeners p) (submit_listeners p)
       (pending p) (timers p) (clock p).
(** [notificationArea.innerHTML = html], through the reference a
    callback holds: [saveSettings] got past its own write to the area
    only when the element exists. *)
Definition with_notification (html : jsstring) (p : page) :=
  Page (elements p) (inputs p) (jackettForm p) (qbitForm p)
       (Some html) (toggle_listeners p) (submit_listeners p)
       (pending p) (timers p) (clock p).
Definition with_listeners (ts : list nat) (fs : list form_id) (p : page) :=
  Page (elements p) (inputs p) (jackettForm p) (qbitForm p)
       (notificationArea p) ts fs (pending p) (timers p) (clock p).
Definition with_pending (f : gmap nat closure -> gmap nat closure)
           (p : page) :=
  Page (elements p) (inputs p) (jackettForm p) (qbitForm p)
       (notificationArea p) (toggle_listeners p) (submit_listeners p)
       (f (pending p)) (timers p) (clock p).
Definition with_timers (f : list (N * task) -> list (N * task)) (p : page) :=
  Page (elements p) (inputs p) (jackettForm p) (qbitForm p)
       (notificationArea p) (toggle_listeners p) (submit_listeners p)
       (pending p) (f (timers p)) (clock p).
Definition with_clock (f : N -> N) (p : page) :=
  Page (elements p) (inputs p) (jackettForm p) (qbitForm p)
       (notificationArea p) (toggle_listeners p) (submit_listeners p)
       (pending p) (timers p) (f (clock p)).

Definition form_of (f : form_id) (p : page) : option form :=
  match f with
  | jackett_settings_form => jackettForm p
  | qbittorrent_settings_form => qbitForm p
  end.

Definition button_of (f : form_id) (p : page) : option button :=
  match form_of f p with
  | Some fm => submit_button fm
  | None => None
  end.

(** A write through the [button] reference a closure holds. *)
Definition with_button (f : form_id) (g : button -> button) (p : page) :=
  let upd (fm : option form) :=
    match fm with
    | Some (Form (Some b)) => Some (Form (Some (g b)))
    | other => other
    end in
  match f with
  | jackett_settings_form =>
      Page (elements p) (inputs p) (upd (jackettForm p)) (qbitForm p)
           (notificationArea p) (toggle_listeners p) (submit_listeners p)
           (pending p) (timers p) (clock p)
  | qbittorrent_settings_form =>
      Page (elements p) (inputs p) (jackettForm p) (upd (qbitForm p))
           (notificationArea p) (toggle_listeners p) (submit_listeners p)
           (pending p) (timers p) (clock p)
  end.

Definition set_textContent (t : jsstring) (b : button) : button :=
  Button t (disabled b).
Definition set_disabled (d : bool) (b : button) : button :=
  Button (textContent b) d.

(** The page while a submission of form [f] is busy. *)
Definition saving (f : form_id) (p : page) : page :=
  with_button f (set_disabled true)
    (with_button f (set_textContent (str "Saving...")) p).

(** Form [f] shows its busy state: the button is disabled and labelled
    [Saving...]. *)
Definition busy (f : form_id) (p : page) : Prop :=
  button_of f p = Some (Button (str "Saving...") true).

(** Nothing was sent, nothing is registered or scheduled, and there is
    no notification element. *)
Definition silent (w : world page) : Prop :=
  network w = [] /\ notificationArea (self w) = None /\
  pending (self w) = ∅ /\ timers (self w) = [].

(** A decoded body on which [success] and [message] read as
    [undefined]: a boolean, a number, a string or an array. *)
Definition no_named_properties (v : value) : bool :=
  match v with
  | Bool _ | Num _ | Str _ | Arr _ => true
  | Undefined | Null | Obj _ => false
  end.

Section Script.
Context `{Browser}.

(** *** Selectors *)

Fixpoint first_match (sel : jsstring) (i : nat) (es : list element)
  : option nat :=
  match es with
  | e :: es' => if selector_matches sel e then Some i
                else first_match sel (Datatypes.S i) es'
  | [] => None
  end.

Fixpoint all_matches (sel : jsstring) (i : nat) (es : list element)
  : list nat :=
  match es with
  | e :: es' => if selector_matches sel e
                then i :: all_matches sel (Datatypes.S i) es'
                else all_matches sel (Datatypes.S i) es'
  | [] => []
  end.

(** [document.querySelector(sel)]: the first match in document order,
    [null] when there is none, a SyntaxError when [sel] is not a
    selector.  An argument that is [null] is first converted to the
    string [null]. *)
Definition querySelector (sel : option jsstring) : M page (option nat) :=
  let text := default (str "null") sel in
  if selector_valid text
  then read (fun p => first_match text 0 (elements p))
  else throw (DOMException "SyntaxError").

Definition querySelectorAll (sel : jsstring) : M page (list nat) :=
  if selector_valid sel
  then read (fun p => all_matches sel 0 (elements p))
  else throw (DOMException "SyntaxError").

(** *** Season toggles *)

(** The click listener of the toggle that is element [toggle]. *)
Definition toggle_click (toggle : nat) : M page unit :=
  let* attrs := read (fun p => default [] (attributes <$> elements p !! toggle)) in
  let targetId := getAttribute attrs (str "data-target") in
  let* targetElement := querySelector targetId in
  match targetElement with
  | Some t =>
      let* d := read (fun p => default [] (display <$> elements p !! t)) in
      if bool_decide (d = str "none")
      then modify (with_elements (alter (set_display (str "block")) t))
      else modify (with_elements (alter (set_display (str "none")) t))
  | None => ret tt
  end.

(** The selector text the click listener of [toggle] hands to
    [querySelector]. *)
Definition target_of (toggle : nat) (p : page) : jsstring :=
  default (str "null")
          (getAttribute (default [] (attributes <$> elements p !! toggle))
                        (str "data-target")).

(** The display the listener writes over that of [e]. *)
Definition flipped (e : element) : element :=
  set_display (if hidden e then str "block" else str "none") e.

(** *** Settings forms *)

Definition dq : jsstring := [34%N].

(** The template literal of both banners. *)
Definition alert (alertClass message : jsstring) : jsstring :=
  str "<div class=" ++ dq ++ str "alert " ++ alertClass ++ dq ++
  str " role=" ++ dq ++ str "alert" ++ dq ++ str ">" ++
  message ++ str "</div>".

Definition fallback_message : jsstring :=
  str "An unexpected error occurred. Check console for details.".

Fixpoint join (sep : jsstring) (parts : list jsstring) : jsstring :=
  match parts with
  | [] => []
  | [p] => p
  | p :: rest => p ++ sep ++ join sep rest
  end.

(** ToString, as a template literal applies it to a decoded value.  An
    array is joined with commas, [null] and [undefined] items counting
    as empty.  An object prints as [[object Object]] through the
    inherited method, unless it has a property [toString] of its own:
    what JSON decodes is never callable, [valueOf] only hands the object
    back, and the conversion throws. *)
Fixpoint to_string (v : value) : result jsstring :=
  match v with
  | Undefined => Ok (str "undefined")
  | Null => Ok (str "null")
  | Bool true => Ok (str "true")
  | Bool false => Ok (str "false")
  | Num x => Ok (number_to_string x)
  | Str s => Ok s
  | Arr items =>
      match (fix each (l : list value) : result (list jsstring) :=
               match l with
               | [] => Ok []
               | x :: l' =>
                   match match x with
                         | Undefined | Null => Ok []
                         | _ => to_string x
                         end with
                   | Ok part =>
                       match each l' with
                       | Ok parts => Ok (part :: parts)
                       | Throw e => Throw e
                       end
                   | Throw e => Throw e
                   end
               end) items with
      | Ok parts => Ok (join (str ",") parts)
      | Throw e => Throw e
      end
  | Obj props =>
      match own_property (str "toString") props with
      | Some _ => Throw (TypeError "Cannot convert object to primitive value")
      | None => Ok (str "[object Object]")
      end
  end.

Definition save_request (data : value) : request :=
  Request "POST" (str "/admin/save_settings")
          [("Content-Type", "application/json")%string]
          (JSON_stringify data).

Definition setTimeout (t : task) (delay : N) : M page unit :=
  modify (fun p => with_timers (fun ts => ts ++ [((clock p + delay)%N, t)]) p).

(** The synchronous part of [saveSettings(data, formElement)]. *)
Definition saveSettings (data : value) (formElement : form_id)
  : M page unit :=
  let* button := read (button_of formElement) in
  match button with
  | None => throw (TypeError "Cannot read properties of null")
  | Some b =>
      let original := textContent b in
      modify (with_button formElement (set_textContent (str "Saving..."))) ;;
      modify (with_button formElement (set_disabled true)) ;;
      let* area := read notificationArea in
      match area with
      | None => throw (TypeError "Cannot set properties of null")
      | Some _ =>
          modify (with_notification []) ;;
          let* rid := fetch (save_request data) in
          modify (with_pending (fun m => <[rid := Closure formElement original]> m))
      end
  end.

(** [result => { ... }] *)
Definition on_result (result : value) : M page value :=
  let* success := lift (get result "success") in
  let alertClass := if truthy success then str "alert-success"
                    else str "alert-danger" in
  let* text := lift (get result "message") in
  let* printed := lift (to_string text) in
  let message := alert alertClass printed in
  modify (with_notification message) ;; ret Undefined.

(** [(error) => { ... }] *)
Definition on_error (error : exn) : M page value :=
  console_error "Error:" error ;;
  let message := alert (str "alert-danger") fallback_message in
  modify (with_notification message) ;; ret Undefined.

(** [() => { ... }] of [finally] *)
Definition on_settled (c : closure) : M page value :=
  modify (with_button (cl_form c) (set_textContent (originalButtonText c))) ;;
  modify (with_button (cl_form c) (set_disabled false)) ;;
  setTimeout ClearNotifications 5000 ;; ret Undefined.

Definition save_chain (rid : nat) (c : closure) (o : outcome)
  : promise page value :=
  finally_
    (catch_ (then_ (then_ (fetched rid o) json) on_result) on_error)
    (on_settled c).

Definition run_task (t : task) : M page unit :=
  match t with
  | ClearNotifications => modify (with_notification [])
  end.

Definition value_of (id : string) : M page jsstring :=
  let* v := read (fun p => inputs p !! id) in
  match v with
  | Some s => ret s
  | None => throw (TypeError "Cannot read properties of null")
  end.

(** The submit listeners; [e.preventDefault()] leaves the page as it is. *)
Definition on_submit (f : form_id) : M page unit :=
  match f with
  | jackett_settings_form =>
      let* url := value_of "jackett_url" in
      let* key := value_of "jackett_api_key" in
      saveSettings (Obj [(str "jackett_url", Str url);
                         (str "jackett_api_key", Str key)]) f
  | qbittorrent_settings_form =>
      let* url := value_of "qbittorrent_url" in
      let* user := value_of "qbittorrent_user" in
      let* pass := value_of "qbittorrent_pass" in
      saveSettings (Obj [(str "qbittorrent_url", Str url);
                         (str "qbittorrent_user", Str user);
                         (str "qbittorrent_pass", Str pass)]) f
  end.

(** The [DOMContentLoaded] listener: it binds the others. *)
Definition DOMContentLoaded : M page unit :=
  let* seasonToggles := querySelectorAll (str ".season-toggle") in
  let* jackett := read jackettForm in
  let* qbit := read qbitForm in
  modify (with_listeners seasonToggles
            (match jackett with Some _ => [jackett_settings_form] | None => [] end ++
             match qbit with Some _ => [qbittorrent_settings_form] | None => [] end)).

(** *** The page in its event loop

    Each event runs its listener to completion.  A settlement runs the
    whole chain of its request at once: the reactions of one chain are
    consecutive jobs, and none of them reads what another chain writes.
    Time is a clock in milliseconds that only [Elapse] advances, and a
    timer may fire at any moment from its due time on. *)

Inductive event :=
| Click (toggle : nat)
| Input (id : string) (text : jsstring)
| Submit (f : form_id)
| Settle (rid : nat) (o : outcome)
| Elapse (dt : N)
| Timeout (i : nat).

Definition step (ev : event) (w : world page) : option (world page) :=
  match ev with
  | Click toggle =>
      if decide (toggle ∈ toggle_listeners (self w))
      then Some (toggle_click toggle w).2 else None
  | Input id text =>
      match inputs (self w) !! id with
      | Some _ => Some (modify (with_inputs (fun m => <[id := text]> m)) w).2
      | None => None
      end
  | Submit f =>
      if decide (f ∈ submit_listeners (self w))
      then Some (on_submit f w).2 else None
  | Settle rid o =>
      match pending (self w) !! rid with
      | Some c =>
          Some ((settle (save_chain rid c o))
                  (modify (with_pending (fun m => delete rid m)) w).2).2
      | None => None
      end
  | Elapse dt => Some (modify (with_clock (fun t => (t + dt)%N)) w).2
  | Timeout i =>
      match timers (self w) !! i with
      | Some (due, t) =>
          if (due <=? clock (self w))%N
          then Some (run_task t
                       (modify (with_timers (fun ts => delete i ts)) w).2).2
          else None
      | None => None
      end
  end.

Fixpoint run (evs : list event) (w : world page) : option (world page) :=
  match evs with
  | [] => Some w
  | ev :: evs' => match step ev w with
                  | Some w' => run evs' w'
                  | None => None
                  end
  end.

(** The page once [DOMContentLoaded] has fired. *)
Definition loaded (p : page) : world page :=
  (DOMContentLoaded (World p [] [] [])).2.

(** Every registered closure belongs to a request already issued and
    to a form that has its submit button. *)
Definition registered (w : world page) : Prop :=
  forall rid c, pending (self w) !! rid = Some c ->
                rid < length (network w) /\
                is_Some (button_of (cl_form c) (self w)).

(** *** Reading the notification area *)

Fixpoint starts_with (pat s : jsstring) : bool :=
  match pat, s with
  | [], _ => true
  | a :: pat', b :: s' => (a =? b)%N && starts_with pat' s'
  | _ :: _, [] => false
  end.

Fixpoint occurrences (pat s : jsstring) : nat :=
  match s with
  | [] => 0
  | _ :: s' => (if starts_with pat s then 1 else 0) + occurrences pat s'
  end.

(** How many alert banners open in a piece of markup. *)
Definition banners (html : jsstring) : nat :=
  occurrences (str "<div class=" ++ dq ++ str "alert ") html.

(** Text without [<] holds no markup: written into an element it stays
    text. *)
Definition plain (text : jsstring) : bool :=
  forallb (fun c => negb (c =? 60)%N) text.

(** The area is absent or shows at most one banner. *)
Definition at_most_one_shown (area : option jsstring) : Prop :=
  match area with
  | None => True
  | Some html => banners html <= 1
  end.

(** What the chain of [saveSettings] leaves in the notification area. *)
Definition notification_of (o : outcome) : jsstring :=
  match o with
  | Responded (Decoded result) =>
      match get result "success", get result "message" with
      | Ok success, Ok text =>
          match to_string text with
          | Ok printed =>
              alert (if truthy success then str "alert-success"
                     else str "alert-danger") printed
          | Throw _ => alert (str "alert-danger") fallback_message
          end
      | _, _ => alert (str "alert-danger") fallback_message
      end
  | _ => alert (str "alert-danger") fallback_message
  end.

(** The error that chain catches, if any. *)
Definition caught (o : outcome) : option exn :=
  match o with
  | Rejected e => Some e
  | Responded (Malformed e) => Some e
  | Responded (Decoded result) =>
      match get result "success", get result "message" with
      | Ok _, Ok text =>
          match to_string text with
          | Ok _ => None
          | Throw e => Some e
          end
      | Throw e, _ | _, Throw e => Some e
      end
  end.

(** An event whose response, if it has one, brings a message free of
    markup: printed, the message has no [<]. *)
Definition plain_event (ev : event) : bool :=
  match ev with
  | Settle _ (Responded (Decoded result)) =>
      match get result "message" with
      | Ok text =>
          match to_string text with
          | Ok printed => plain printed
          | Throw _ => true
          end
      | Throw _ => true
      end
  | _ => true
  end.

End Script.

(** *** A small browser for the examples

    Selectors are [#id], [.class] and a bare tag name; anything else,
    the empty string included, is rejected as a real engine rejects it.
    No example prints a number. *)

Definition is_name_start (c : N) : bool :=
  (((65 <=? c) && (c <=? 90)) || ((97 <=? c) && (c <=? 122)) ||
   (c =? 95) || (c =? 45))%N.
Definition is_name_char (c : N) : bool :=
  (is_name_start c || ((48 <=? c) && (c <=? 57)))%N.
Definition is_name (s : jsstring) : bool :=
  match s with
  | c :: rest => is_name_start c && forallb is_name_char rest
  | [] => false
  end.

Fixpoint tokens (cur : jsstring) (s : jsstring) : list jsstring :=
  match s with
  | [] => match cur with [] => [] | _ => [rev cur] end
  | c :: s' =>
      if is_white_space c
      then match cur with [] => tokens [] s' | _ => rev cur :: tokens [] s' end
      else tokens (c :: cur) s'
  end.

Definition example_valid (sel : jsstring) : bool :=
  match sel with
  | 35%N :: name | 46%N :: name => is_name name
  | _ => is_name sel
  end.

Definition example_matches (sel : jsstring) (e : element) : bool :=
  match sel with
  | 35%N :: name =>
      bool_decide (getAttribute (attributes e) (str "id") = Some name)
  | 46%N :: name =>
      bool_decide (name ∈ tokens [] (default [] (getAttribute (attributes e) (str "class"))))
  | _ => bool_decide (tagName e = sel)
  end.

Definition example_browser : Browser :=
  Build_Browser example_valid example_matches (fun _ => str "NaN").

End Page.

(** ** What a chain makes of an outcome *)

Module Outcome.
Import JS.

(** The error the chain of either widget ends up catching, if any. *)
Definition failed (o : outcome) : option exn :=
  match o with
  | Rejected e => Some e
  | Responded (Malformed e) => Some e
  | Responded (Decoded v) =>
      match get v "error" with
      | Throw e => Some e
      | Ok _ => None
      end
  end.

(** The value the chain assigns to [results], if it gets that far. *)
Definition payload (o : outcome) : option value :=
  match o with
  | Responded (Decoded v) =>
      match get v "error" with
      | Ok e => Some (if truthy e then Arr [] else v)
      | Throw _ => None
      end
  | _ => None
  end.

(** The body is an object with a property named [error], whatever its
    value. *)
Definition carries_error (v : value) : bool :=
  match v with
  | Obj props => bool_decide (is_Some (own_property (str "error") props))
  | _ => false
  end.

End Outcome.

(** ** Documents and responses of the examples *)

Module Examples.
Import JS Page.

(** A toggle and the season it opens. *)
Definition season_page (target shown : jsstring) : page :=
  Page [Element (str "button")
                [(str "class", str "btn season-toggle");
                 (str "data-target", target)] [];
        Element (str "div") [(str "id", str "season-1")] shown]
       ∅ None None None [] [] ∅ [] 0.

(** The admin page, with the Jackett form filled in. *)
Definition admin_page : page :=
  Page []
       (<["jackett_url"%string := str "http://jackett:9117"]>
          (<["jackett_api_key"%string := str "secret"]> ∅))
       (Some (Form (Some (Button (str "Save") false))))
       None (Some []) [] [] ∅ [] 0.

(** [{success: true, message: "Saved"}] *)
Definition saved_body : value :=
  Obj [(str "success", Bool true); (str "message", Str (str "Saved"))].

(** A response whose message is itself the markup of a banner. *)
Definition markup_body : value :=
  Obj [(str "success", Bool true);
       (str "message", Str (alert (str "alert-danger") (str "x")))].

(** The admin page with both forms filled in. *)
Definition both_forms_page : page :=
  Page []
       (<["jackett_url"%string := str "http://jackett:9117"]>
          (<["jackett_api_key"%string := str "secret"]>
             (<["qbittorrent_url"%string := str "http://qbit:8080"]>
                (<["qbittorrent_user"%string := str "admin"]>
                   (<["qbittorrent_pass"%string := str "hunter2"]> ∅)))))
       (Some (Form (Some (Button (str "Save Jackett") false))))
       (Some (Form (Some (Button (str "Save qBittorrent") false))))
       (Some []) [] [] ∅ [] 0.

(** The admin page as a template without the notification element
    would serve it. *)
Definition page_without_area : page :=
  Page []
       (<["jackett_url"%string := str "http://jackett:9117"]>
          (<["jackett_api_key"%string := str "secret"]> ∅))
       (Some (Form (Some (Button (str "Save") false))))
       None None [] [] ∅ [] 0.

End Examples.

(** ** The definitions on small inputs *)

Module Checks.
Import JS Page Examples.

Example trim_spaces : trim (str "  ab  ") = str "ab".
Proof. reflexivity. Qed.

(** Tab, line feed and the byte order mark go; a no-break space between
    two letters stays. *)
Example trim_unicode :
  trim [9; 10; 97; 160; 98; 65279; 8233]%N = [97; 160; 98]%N.
Proof. reflexivity. Qed.

Example trim_blank : length (trim (str "     ")) = 0.
Proof. reflexivity. Qed.

Example truthy_values :
  map truthy [Undefined; Null; Bool false; Num (S754_zero true); Num S754_nan;
              Str []; Str (str "0"); Num (S754_infinity false); Arr []; Obj []]
  = [false; false; false; false; false; false; true; true; true; true].
Proof. reflexivity. Qed.

Example get_error :
  get (Obj [(str "results", Arr []); (str "error", Str (str "down"))]) "error"
  = Ok (Str (str "down")) /\
  get (Arr [Obj [(str "error", Bool true)]]) "error" = Ok Undefined /\
  get Null "error" = Throw (TypeError "Cannot read properties").
Proof. repeat split. Qed.

Example to_string_array :
  @to_string example_browser
    (Arr [Str (str "a"); Null; Arr [Bool true; Undefined]; Obj []])
  = Ok (str "a,,true,,[object Object]").
Proof. reflexivity. Qed.

Example to_string_throws :
  @to_string example_browser (Obj [(str "toString", Num (S754_zero false))])
  = Throw (TypeError "Cannot convert object to primitive value") /\
  @to_string example_browser
    (Arr [Str (str "a"); Obj [(str "toString", Null)]; Str (str "b")])
  = Throw (TypeError "Cannot convert object to primitive value") /\
  @to_string example_browser (Obj [(str "valueOf", Null)])
  = Ok (str "[object Object]").
Proof. repeat split. Qed.

Example alert_markup :
  length (alert (str "alert-success") (str "Saved")) = 57 /\
  banners (alert (str "alert-success") (str "Saved")) = 1 /\
  banners (alert (str "alert-danger") fallback_message ++
           alert (str "alert-success") (str "Saved")) = 2 /\
  banners [] = 0.
Proof. repeat split. Qed.

Example selectors :
  map example_valid [str "#season-1"; str ".season-toggle"; str "null";
                     []; str "#1"; str "#"]
  = [true; true; true; false; false; false].
Proof. reflexivity. Qed.

Example toggles_bound :
  toggle_listeners (self (@loaded example_browser (season_page (str "#season-1") [])))
  = [0].
Proof. reflexivity. Qed.

Example submit_dispatches :
  network (on_submit jackett_settings_form (@loaded example_browser admin_page)).2
  = [save_request (Obj [(str "jackett_url", Str (str "http://jackett:9117"));
                        (str "jackett_api_key", Str (str "secret"))])].
Proof. vm_compute. reflexivity. Qed.

End Checks.

(** ** Finalizations are counted once per settled request *)

Module LoopFacts.
Import JS Loop.

Lemma count_finalizations (r rid : nat) (rs : list (nat * reaction)) :
  filter (fun x => x.2 = OnFinally) rs = [(rid, OnFinally)] ->
  length (filter (fun x => x = (r, OnFinally)) rs) =
  if decide (r = rid) then 1 else 0.
Proof.
  intros Hrs.
  assert (Hsub : filter (fun x => x = (r, OnFinally)) rs =
                 filter (fun x => x = (r, OnFinally))
                        (filter (fun x => x.2 = OnFinally) rs)).
  { clear. induction rs as [ | [a k] rs IH]; [done | ].
    rewrite !filter_cons. simpl.
    destruct (decide (k = OnFinally)) as [-> | Hk].
    - rewrite filter_cons. destruct (decide _); by rewrite IH.
    - destruct (decide ((a, k) = (r, OnFinally))) as [[= _ ?] | ];
        [done | exact IH]. }
  rewrite Hsub, Hrs, filter_cons. simpl.
  destruct (decide ((rid, OnFinally) = (r, OnFinally))) as [[= ->] | Hne].
  - by rewrite decide_True.
  - rewrite decide_False; [done | ]. intros ->. by apply Hne.
Qed.

Lemma finalizations_settled {S} (r rid : nat) (w w' : world S) rs :
  reactions w' = reactions w ++ rs ->
  filter (fun x => x.2 = OnFinally) rs = [(rid, OnFinally)] ->
  finalizations r w' =
  finalizations r w + if decide (r = rid) then 1 else 0.
Proof.
  intros Hr Hrs. unfold finalizations.
  by rewrite Hr, filter_app, length_app, (count_finalizations r rid rs Hrs).
Qed.

Section Accounting.
Context {S Method : Type}.
Variable call : Method -> M S unit.
Variable chain : nat -> outcome -> promise S value.

Hypothesis call_silent :
  forall m w, reactions (call m w).2 = reactions w.
Hypothesis chain_finalizes :
  forall rid o w,
    exists rs, reactions ((settle (chain rid o)) w).2 = reactions w ++ rs /\
               filter (fun x => x.2 = OnFinally) rs = [(rid, OnFinally)].

Lemma step_accounted ev st st' :
  step call chain ev st = Some st' -> accounted st -> accounted st'.
Proof.
  destruct ev as [m | rid o]; simpl.
  - intros [= <-] Hacc r. specialize (Hacc r). simpl in *.
    unfold finalizations in *. now rewrite call_silent.
  - destruct (decide (in_flight st rid)) as [[_ Hfresh] | ]; [ | discriminate].
    intros [= <-] Hacc r. specialize (Hacc r).
    destruct (chain_finalizes rid o (now st)) as (rs & Hr & Hrs).
    cbn [now settled].
    rewrite (finalizations_settled r rid _ _ rs Hr Hrs), Hacc.
    destruct (decide (r = rid)) as [-> | Hne].
    + rewrite decide_False by done.
      rewrite decide_True; [done | ]. apply elem_of_union_l, elem_of_singleton. done.
    + destruct (decide (r ∈ settled st)) as [Hin | Hout].
      * rewrite decide_True; [lia | ]. by apply elem_of_union_r.
      * rewrite decide_False; [lia | ].
        intros [Heq%elem_of_singleton | ?]%elem_of_union; tauto.
Qed.

Lemma run_accounted evs : forall st st',
  run call chain evs st = Some st' -> accounted st -> accounted st'.
Proof.
  induction evs as [ | ev evs IH]; simpl; intros st st'.
  - by intros [= <-].
  - destruct (step call chain ev st) as [st1 | ] eqn:Hstep; [ | discriminate].
    intros Hrun Hacc. eapply IH; [exact Hrun | ].
    eapply step_accounted; eauto.
Qed.

Lemma boot_accounted (d : S) : accounted (boot d).
Proof.
  intros rid. unfold finalizations. simpl.
  rewrite decide_False; [done | ]. apply not_elem_of_empty.
Qed.

End Accounting.
End LoopFacts.

(** ** Properties of the search widget and of the media lists *)

Module ScriptsFacts.
Import JS Outcome.

Lemma trim_short_or_long (q : jsstring) :
  (length (trim q) <? 3) = true <-> length (trim q) < 3.
Proof. apply Nat.ltb_lt. Qed.

Lemma search_chain_self rid o (w : world Search.data) :
  self ((settle (Search.search_chain rid o)) w).2 =
  Search.set_loading false
    (match payload o with
     | Some r => Search.set_results r (self w)
     | None => self w
     end).
Proof.
  destruct o as [e | [e | v]]; try reflexivity.
  unfold payload. cbn. unfold Search.on_data, bind, lift.
  destruct (get v "error") as [x | e]; reflexivity.
Qed.

Lemma search_chain_console rid o (w : world Search.data) :
  console ((settle (Search.search_chain rid o)) w).2 =
  console w ++ match failed o with
               | Some e => [("Fetch Error:"%string, e)]
               | None => []
               end.
Proof.
  destruct o as [e | [e | v]]; try reflexivity.
  unfold failed. cbn. unfold Search.on_data, bind, lift.
  destruct (get v "error") as [x | e]; cbn; [ | reflexivity].
  by rewrite app_nil_r.
Qed.

Lemma search_chain_network rid o (w : world Search.data) :
  network ((settle (Search.search_chain rid o)) w).2 = network w.
Proof.
  destruct o as [e | [e | v]]; try reflexivity.
  cbn. unfold Search.on_data, bind, lift.
  destruct (get v "error") as [x | e]; reflexivity.
Qed.

Lemma search_chain_reactions rid o (w : world Search.data) :
  exists rs,
    reactions ((settle (Search.search_chain rid o)) w).2 = reactions w ++ rs /\
    filter (fun x => x.2 = OnFinally) rs = [(rid, OnFinally)].
Proof.
  destruct o as [e | [e | v]].
  - exists [(rid, OnRejected); (rid, OnFinally)]. split; [ | reflexivity].
    cbn. by rewrite <- !app_assoc.
  - exists [(rid, OnFulfilled); (rid, OnRejected); (rid, OnFinally)].
    split; [ | reflexivity]. cbn. by rewrite <- !app_assoc.
  - cbn. unfold Search.on_data, bind, lift.
    destruct (get v "error") as [x | e].
    + exists [(rid, OnFulfilled); (rid, OnFulfilled); (rid, OnFinally)].
      split; [ | reflexivity]. cbn. by rewrite <- !app_assoc.
    + exists [(rid, OnFulfilled); (rid, OnFulfilled); (rid, OnRejected);
              (rid, OnFinally)].
      split; [ | reflexivity]. cbn. by rewrite <- !app_assoc.
Qed.

Lemma init_chain_self rid o (w : world Media.data) :
  self ((settle (Media.init_chain rid o)) w).2 =
  Media.set_loading false
    (match payload o with
     | Some r => Media.set_results r (self w)
     | None => self w
     end).
Proof.
  destruct o as [e | [e | v]]; try reflexivity.
  unfold payload. cbn. unfold Media.on_data, bind, lift.
  destruct (get v "error") as [x | e]; reflexivity.
Qed.

Lemma init_chain_reactions rid o (w : world Media.data) :
  exists rs,
    reactions ((settle (Media.init_chain rid o)) w).2 = reactions w ++ rs /\
    filter (fun x => x.2 = OnFinally) rs = [(rid, OnFinally)].
Proof.
  destruct o as [e | [e | v]].
  - exists [(rid, OnRejected); (rid, OnFinally)]. split; [ | reflexivity].
    cbn. by rewrite <- !app_assoc.
  - exists [(rid, OnFulfilled); (rid, OnRejected); (rid, OnFinally)].
    split; [ | reflexivity]. cbn. by rewrite <- !app_assoc.
  - cbn. unfold Media.on_data, bind, lift.
    destruct (get v "error") as [x | e].
    + exists [(rid, OnFulfilled); (rid, OnFulfilled); (rid, OnFinally)].
      split; [ | reflexivity]. cbn. by rewrite <- !app_assoc.
    + exists [(rid, OnFulfilled); (rid, OnFulfilled); (rid, OnRejected);
              (rid, OnFinally)].
      split; [ | reflexivity]. cbn. by rewrite <- !app_assoc.
Qed.

End ScriptsFacts.

(** ** The search widget and the media lists against their specification *)

Module ScriptsClaims.
Import JS Outcome ScriptsFacts.

(** C1. When the trimmed query has fewer than three code units,
    [search()] returns without a request: the network log is the one it
    found, [results] is the empty array and [searched] is false. *)
Theorem search_short_query_is_silent (w : world Search.data) :
  length (trim (Search.query (self w))) < 3 ->
  (Search.search w).1 = Ok tt /\
  network (Search.search w).2 = network w /\
  Search.results (self (Search.search w).2) = Arr [] /\
  Search.searched (self (Search.search w).2) = false /\
  Search.loading (self (Search.search w).2) = Search.loading (self w).
Proof.
  intros Hshort. apply trim_short_or_long in Hshort.
  unfold Search.search, bind, read. simpl. rewrite Hshort. simpl. done.
Qed.

Lemma search_long_query_dispatch (w : world Search.data) :
  3 <= length (trim (Search.query (self w))) ->
  self (Search.search w).2 =
    Search.set_searched true (Search.set_loading true (self w)) /\
  network (Search.search w).2 =
    network w ++ [Search.search_request (Search.query (self w))].
Proof.
  intros Hlong.
  assert (Hnb : (length (trim (Search.query (self w))) <? 3) = false)
    by (apply Nat.ltb_ge; exact Hlong).
  unfold Search.search, bind, read. simpl. rewrite Hnb. done.
Qed.

Lemma search_short_query_is_silent_witness :
  let w := World (Search.set_query (str "  ab  ") Search.jackettSearch)
                 [] [Search.search_request (str "old")] [] in
  length (trim (Search.query (self w))) < 3 /\
  network (Search.search w).2 = [Search.search_request (str "old")] /\
  Search.results (self (Search.search w).2) = Arr [].
Proof.
  intros w.
  assert (Hlt : length (trim (Search.query (self w))) < 3) by (vm_compute; lia).
  split; [exact Hlt | ].
  destruct (search_short_query_is_silent w Hlt) as (_ & Hn & Hr & _).
  split; [exact Hn | exact Hr].
Defined.

(** C4. When the trimmed query has at least three code units,
    [search()] first sets [loading] and [searched], and then issues one
    request: a POST to /search_jackett whose form data is the query as
    typed and [media_type] set to [all]. *)
Theorem search_long_query_posts_once (w : world Search.data) :
  3 <= length (trim (Search.query (self w))) ->
  let q := Search.query (self w) in
  let ready := World (Search.set_searched true (Search.set_loading true (self w)))
                     (console w) (network w) (reactions w) in
  Search.search w = (let* _ := fetch (Search.search_request q) in ret tt) ready /\
  Search.loading (self ready) = true /\
  Search.searched (self ready) = true /\
  network ready = network w /\
  network (Search.search w).2 = network w ++ [Search.search_request q] /\
  self (Search.search w).2 = self ready /\
  req_method (Search.search_request q) = "POST"%string /\
  req_url (Search.search_request q) = str "/search_jackett" /\
  req_body (Search.search_request q) =
    FormData [("query"%string, q); ("media_type"%string, str "all")].
Proof.
  intros Hlong q ready.
  assert (Hnb : (length (trim q) <? 3) = false) by (apply Nat.ltb_ge; exact Hlong).
  unfold Search.search, bind, read. simpl. fold q. rewrite Hnb. simpl.
  repeat split.
Qed.

Lemma search_long_query_posts_once_witness :
  let w := World (Search.set_query (str " dune ") Search.jackettSearch) [] [] [] in
  3 <= length (trim (Search.query (self w))) /\
  network (Search.search w).2 = [Search.search_request (str " dune ")] /\
  Search.loading (self (Search.search w).2) = true.
Proof.
  intros w.
  assert (Hge : 3 <= length (trim (Search.query (self w)))) by (vm_compute; lia).
  split; [exact Hge | ].
  destruct (search_long_query_posts_once w Hge)
    as (_ & Hl & _ & _ & Hn & Hs & _).
  split; [exact Hn | ]. rewrite Hs. exact Hl.
Defined.

(** C5. When the fetch of a search rejects, or the body of its response
    does not decode, the error is written to the console under the
    label of the source, [results] keeps its value, and [loading] ends
    up false. *)
Theorem search_failure_is_logged (rid : nat) (e : exn) (w : world Search.data) :
  (let w' := ((settle (Search.search_chain rid (Rejected e))) w).2 in
   console w' = console w ++ [("Fetch Error:"%string, e)] /\
   Search.results (self w') = Search.results (self w) /\
   Search.loading (self w') = false) /\
  (let w' := ((settle (Search.search_chain rid (Responded (Malformed e)))) w).2 in
   console w' = console w ++ [("Fetch Error:"%string, e)] /\
   Search.results (self w') = Search.results (self w) /\
   Search.loading (self w') = false).
Proof.
  split; intros w'; subst w';
    rewrite search_chain_console, search_chain_self; done.
Qed.

Lemma search_silent m (w : world Search.data) :
  reactions (Search.call m w).2 = reactions w.
Proof.
  destruct m as [q | ]; [reflexivity | ].
  unfold Search.call, Search.search, bind, read. simpl.
  destruct (length (trim (Search.query (self w))) <? 3); reflexivity.
Qed.

(** C2. Loading spans each request.  A search that dispatches leaves
    [loading] true, and so does the [init()] of a media list on the
    object its data function returned, which starts with [loading] true
    and which [init()] does not write; whatever the outcome of the
    request (rejected, undecodable, decoded), the chain leaves
    [loading] false and its [finally] callback has run once more for
    that request; and over any sequence of calls and settlements, the
    callback has run exactly once for each settled request and not yet
    for the others. *)
Theorem loading_spans_each_request :
  (forall w : world Search.data,
      3 <= length (trim (Search.query (self w))) ->
      Search.loading (self (Search.search w).2) = true /\
      length (network (Search.search w).2) = Datatypes.S (length (network w))) /\
  (forall mediaType limit c n r,
      let w := World (Media.availableMedia mediaType limit) c n r in
      let w' := (Media.availableMedia_init mediaType limit w).2 in
      Media.loading (self w') = true /\
      network w' = n ++ [Media.get_request (Media.available_url mediaType limit)]) /\
  (forall mediaType c n r,
      let w := World (Media.recentMedia mediaType) c n r in
      let w' := (Media.recentMedia_init mediaType w).2 in
      Media.loading (self w') = true /\
      network w' = n ++ [Media.get_request (Media.recent_url mediaType)]) /\
  (forall mediaType limit (w : world Media.data),
      self (Media.availableMedia_init mediaType limit w).2 = self w /\
      self (Media.recentMedia_init mediaType w).2 = self w) /\
  (forall rid o (w : world Search.data),
      let w' := ((settle (Search.search_chain rid o)) w).2 in
      Search.loading (self w') = false /\
      finalizations rid w' = Datatypes.S (finalizations rid w)) /\
  (forall rid o (w : world Media.data),
      let w' := ((settle (Media.init_chain rid o)) w).2 in
      Media.loading (self w') = false /\
      finalizations rid w' = Datatypes.S (finalizations rid w)) /\
  (forall evs d st,
      Loop.run Search.call Search.search_chain evs (Loop.boot d) = Some st ->
      forall rid, finalizations rid (Loop.now st) =
                  if decide (rid ∈ Loop.settled st) then 1 else 0) /\
  (forall mediaType limit evs st,
      Loop.run (fun _ : unit => Media.availableMedia_init mediaType limit)
               Media.init_chain evs
               (Loop.boot (Media.availableMedia mediaType limit)) = Some st ->
      forall rid, finalizations rid (Loop.now st) =
                  if decide (rid ∈ Loop.settled st) then 1 else 0) /\
  (forall mediaType evs st,
      Loop.run (fun _ : unit => Media.recentMedia_init mediaType)
               Media.init_chain evs
               (Loop.boot (Media.recentMedia mediaType)) = Some st ->
      forall rid, finalizations rid (Loop.now st) =
                  if decide (rid ∈ Loop.settled st) then 1 else 0).
Proof.
  repeat apply conj.
  - intros w Hlong.
    destruct (search_long_query_dispatch w Hlong) as (-> & ->).
    split; [done | ]. rewrite length_app. simpl. lia.
  - done.
  - done.
  - done.
  - intros rid o w w'. subst w'. rewrite search_chain_self. split; [done | ].
    destruct (search_chain_reactions rid o w) as (rs & Hr & Hrs).
    rewrite (LoopFacts.finalizations_settled rid rid _ _ rs Hr Hrs).
    rewrite decide_True by done. lia.
  - intros rid o w w'. subst w'. rewrite init_chain_self. split; [done | ].
    destruct (init_chain_reactions rid o w) as (rs & Hr & Hrs).
    rewrite (LoopFacts.finalizations_settled rid rid _ _ rs Hr Hrs).
    rewrite decide_True by done. lia.
  - intros evs d st Hrun.
    eapply (LoopFacts.run_accounted Search.call Search.search_chain);
      [apply search_silent | apply search_chain_reactions | exact Hrun | ].
    apply LoopFacts.boot_accounted.
  - intros mediaType limit evs st Hrun.
    eapply (LoopFacts.run_accounted _ Media.init_chain);
      [ | apply init_chain_reactions | exact Hrun | apply LoopFacts.boot_accounted].
    done.
  - intros mediaType evs st Hrun.
    eapply (LoopFacts.run_accounted _ Media.init_chain);
      [ | apply init_chain_reactions | exact Hrun | apply LoopFacts.boot_accounted].
    done.
Qed.

Lemma loading_spans_each_request_witness :
  let w := World (Search.set_query (str "dune") Search.jackettSearch) [] [] [] in
  let evs := [Loop.Call (Search.SetQuery (str "dune")); Loop.Call Search.CallSearch;
              Loop.Settle 0 (Rejected (TypeError "Failed to fetch"))] in
  (3 <= length (trim (Search.query (self w))) /\
   Search.loading (self (Search.search w).2) = true) /\
  (exists st,
      Loop.run Search.call Search.search_chain evs (Loop.boot Search.jackettSearch)
        = Some st /\
      Search.loading (self (Loop.now st)) = false /\
      finalizations 0 (Loop.now st) = 1).
Proof.
  intros w evs.
  destruct loading_spans_each_request as (Hsearch & _ & _ & _ & _ & _ & Hrun & _).
  assert (Hge : 3 <= length (trim (Search.query (self w)))) by (vm_compute; lia).
  split; [split; [exact Hge | exact (proj1 (Hsearch w Hge))] | ].
  assert (Hst : exists st,
             Loop.run Search.call Search.search_chain evs
                      (Loop.boot Search.jackettSearch) = Some st /\
             Search.loading (self (Loop.now st)) = false /\
             0 ∈ Loop.settled st).
  { eexists. split; [vm_compute; reflexivity | ].
    split; [reflexivity | ]. apply (bool_decide_unpack _). vm_compute. exact I. }
  destruct Hst as (st & Hst & Hl & Hin).
  exists st. split; [exact Hst | ]. split; [exact Hl | ].
  rewrite (Hrun evs Search.jackettSearch st Hst 0). by rewrite decide_True.
Defined.

(** C3, as stated, fails.  A body with an [error] property that is
    falsy, here the empty string, is stored as it is; and the body
    [null] has no [error] property, yet [results] keeps its old value,
    because reading [data.error] throws. *)
Lemma error_field_counterexample :
  let w := World (Search.Data [] (Arr [Str (str "old")]) true true) [] [] [] in
  let quiet := Obj [(str "error", Str [])] in
  (carries_error quiet = true /\
   Search.results
     (self ((settle (Search.search_chain 0 (Responded (Decoded quiet)))) w).2)
   = quiet /\
   quiet <> Arr []) /\
  (carries_error Null = false /\
   Search.results
     (self ((settle (Search.search_chain 0 (Responded (Decoded Null)))) w).2)
   = Arr [Str (str "old")] /\
   Arr [Str (str "old")] <> Null).
Proof. vm_compute. repeat split; discriminate. Qed.

(** C3, amended.  For a decoded body other than [null] (one whose
    [error] property can be read), [results] becomes the empty array
    when that property is truthy and the body itself when it is absent
    or falsy.  The search widget and both media lists agree. *)
Theorem results_follow_error_truthiness (body e : value) (rid : nat) :
  get body "error" = Ok e ->
  (forall w : world Search.data,
      Search.results
        (self ((settle (Search.search_chain rid (Responded (Decoded body)))) w).2)
      = if truthy e then Arr [] else body) /\
  (forall mediaType limit c n r,
      Media.results
        (self ((settle (Media.init_chain rid (Responded (Decoded body))))
                 (Media.availableMedia_init mediaType limit
                    (World (Media.availableMedia mediaType limit) c n r)).2).2)
      = if truthy e then Arr [] else body) /\
  (forall mediaType c n r,
      Media.results
        (self ((settle (Media.init_chain rid (Responded (Decoded body))))
                 (Media.recentMedia_init mediaType
                    (World (Media.recentMedia mediaType) c n r)).2).2)
      = if truthy e then Arr [] else body) /\
  (forall w : world Media.data,
      Media.results
        (self ((settle (Media.init_chain rid (Responded (Decoded body)))) w).2)
      = if truthy e then Arr [] else body).
Proof.
  intros He. repeat apply conj; intros.
  - rewrite search_chain_self. unfold payload. rewrite He. done.
  - rewrite init_chain_self. unfold payload. rewrite He. done.
  - rewrite init_chain_self. unfold payload. rewrite He. done.
  - rewrite init_chain_self. unfold payload. rewrite He. done.
Qed.

Lemma results_follow_error_truthiness_witness :
  let body := Obj [(str "error", Str (str "x"))] in
  get body "error" = Ok (Str (str "x")) /\
  Search.results
    (self ((settle (Search.search_chain 0 (Responded (Decoded body))))
             (World Search.jackettSearch [] [] [])).2)
  = Arr [].
Proof.
  intros body.
  assert (He : get body "error" = Ok (Str (str "x"))) by reflexivity.
  split; [exact He | ].
  exact (proj1 (results_follow_error_truthiness body _ 0 He)
               (World Search.jackettSearch [] [] [])).
Defined.

End ScriptsClaims.

(** ** Properties of the season toggles *)

Module ToggleFacts.
Import JS Page.

Section Toggles.
Context `{Browser}.

Lemma first_match_none sel es : forall i,
  Forall (fun e => selector_matches sel e = false) es ->
  first_match sel i es = None.
Proof.
  induction es as [ | e es IH]; intros i Hall; [done | ].
  inversion Hall as [ | ? ? He Hrest]; subst. simpl. rewrite He. by apply IH.
Qed.

Lemma alter_found {A} (f : A -> A) (es : list A) :
  forall (t : nat) e, es !! t = Some e -> alter f t es = <[t := f e]> es.
Proof.
  induction es as [ | x es IH]; intros [ | t] e He; try done.
  - by injection He as ->.
  - simpl in *. f_equal. by apply IH.
Qed.

(** A selector that does not look at the inline display picks the
    same element after a display was rewritten. *)
Lemma first_match_display_blind sel d (es : list element) :
  (forall x d', selector_matches sel (set_display d' x) = selector_matches sel x) ->
  forall (k : nat) e i,
    es !! k = Some e ->
    first_match sel i (<[k := set_display d e]> es) = first_match sel i es.
Proof.
  intros Hblind. induction es as [ | x es IH]; intros k e i Hk; [done | ].
  destruct k as [ | k]; simpl in *.
  - injection Hk as ->. by rewrite Hblind.
  - by rewrite (IH k e (Datatypes.S i) Hk).
Qed.

Lemma attributes_after_display (es : list element) (k : nat) e d (i : nat) :
  es !! k = Some e ->
  attributes <$> (<[k := set_display d e]> es) !! i = attributes <$> es !! i.
Proof.
  intros Hk. destruct (decide (i = k)) as [-> | Hne].
  - rewrite list_lookup_insert_eq by (by eapply lookup_lt_Some).
    by rewrite Hk.
  - by rewrite list_lookup_insert_ne.
Qed.

Lemma hidden_flipped e : hidden (flipped e) = negb (hidden e).
Proof.
  unfold flipped, hidden. simpl.
  destruct (decide (display e = str "none")) as [Hd | Hd].
  - rewrite (bool_decide_eq_true_2 _ Hd). reflexivity.
  - rewrite (bool_decide_eq_false_2 _ Hd). reflexivity.
Qed.

Lemma toggle_click_found toggle t e (w : world page) :
  selector_valid (target_of toggle (self w)) = true ->
  first_match (target_of toggle (self w)) 0 (elements (self w)) = Some t ->
  elements (self w) !! t = Some e ->
  toggle_click toggle w =
  (Ok tt, World (with_elements (fun es => <[t := flipped e]> es) (self w))
                (console w) (network w) (reactions w)).
Proof.
  intros Hvalid Hfirst He.
  unfold toggle_click, querySelector, bind, read. cbn beta iota.
  fold (target_of toggle (self w)). rewrite Hvalid. cbn beta iota.
  rewrite Hfirst, He. cbn [fmap option_fmap option_map default].
  unfold id, modify, flipped, hidden, with_elements.
  destruct (decide (display e = str "none")) as [Hd | Hd].
  - rewrite !bool_decide_eq_true_2 by exact Hd.
    cbn [self elements]. by rewrite (alter_found _ _ t e He).
  - rewrite !bool_decide_eq_false_2 by exact Hd.
    cbn [self elements]. by rewrite (alter_found _ _ t e He).
Qed.

Lemma toggle_click_missing toggle (w : world page) :
  selector_valid (target_of toggle (self w)) = true ->
  first_match (target_of toggle (self w)) 0 (elements (self w)) = None ->
  toggle_click toggle w = (Ok tt, w).
Proof.
  intros Hvalid Hfirst.
  unfold toggle_click, querySelector, bind, read. cbn beta iota.
  fold (target_of toggle (self w)). rewrite Hvalid. cbn beta iota.
  by rewrite Hfirst.
Qed.

Lemma toggle_click_invalid toggle (w : world page) :
  selector_valid (target_of toggle (self w)) = false ->
  toggle_click toggle w = (Throw (DOMException "SyntaxError"), w).
Proof.
  intros Hvalid.
  unfold toggle_click, querySelector, bind, read. cbn beta iota.
  fold (target_of toggle (self w)). by rewrite Hvalid.
Qed.

End Toggles.
End ToggleFacts.

(** ** The season toggles against their specification *)

Module ToggleClaims.
Import JS Page Examples ToggleFacts.

(** C8, as stated, fails.  A season that is shown without an inline
    display is hidden by the first click and shown again by the second,
    but its inline display is now [block]. *)
Lemma double_click_counterexample :
  let w := @loaded example_browser (season_page (str "#season-1") []) in
  let w2 := (@toggle_click example_browser 0
               (@toggle_click example_browser 0 w).2).2 in
  toggle_listeners (self w) = [0] /\
  display <$> elements (self w) !! 1 = Some [] /\
  display <$> elements (self w2) !! 1 = Some (str "block") /\
  str "block" <> [].
Proof. vm_compute. repeat split; discriminate. Qed.

(** C8, amended.  When the toggle's selector picks element [t] and does
    not depend on inline displays, the first click inverts whether [t]
    is hidden and the second restores it; the inline display ends as
    [none] if it was [none] and as [block] otherwise, so the element is
    the one it was exactly when its display was [none] or [block].  No
    other element changes. *)
Theorem double_click_restores_hidden `{Browser}
    (w : world page) (toggle t : nat) (e : element) :
  selector_valid (target_of toggle (self w)) = true ->
  (forall x d, selector_matches (target_of toggle (self w)) (set_display d x)
               = selector_matches (target_of toggle (self w)) x) ->
  first_match (target_of toggle (self w)) 0 (elements (self w)) = Some t ->
  elements (self w) !! t = Some e ->
  let w1 := (toggle_click toggle w).2 in
  let w2 := (toggle_click toggle w1).2 in
  (exists e1, elements (self w1) !! t = Some e1 /\ hidden e1 = negb (hidden e)) /\
  (exists e2, elements (self w2) !! t = Some e2 /\
              hidden e2 = hidden e /\
              display e2 = (if hidden e then str "none" else str "block") /\
              tagName e2 = tagName e /\ attributes e2 = attributes e /\
              (display e = str "none" \/ display e = str "block" -> e2 = e)) /\
  (forall j : nat, j <> t -> elements (self w2) !! j = elements (self w) !! j).
Proof.
  intros Hvalid Hblind Hfirst He w1 w2.
  assert (Hw1 : w1 = World (with_elements (fun es => <[t := flipped e]> es) (self w))
                           (console w) (network w) (reactions w)).
  { subst w1. by rewrite (toggle_click_found toggle t e w Hvalid Hfirst He). }
  assert (Hlt : t < length (elements (self w))) by (by eapply lookup_lt_Some).
  assert (Htarget : target_of toggle (self w1) = target_of toggle (self w)).
  { rewrite Hw1. unfold target_of, with_elements, flipped. cbn [self elements].
    by rewrite (attributes_after_display _ t e _ toggle He). }
  assert (He1 : elements (self w1) !! t = Some (flipped e)).
  { rewrite Hw1. unfold with_elements. cbn [self elements].
    by rewrite list_lookup_insert_eq. }
  assert (Hfirst1 : first_match (target_of toggle (self w1)) 0 (elements (self w1))
                    = Some t).
  { rewrite Htarget. rewrite Hw1. unfold with_elements, flipped.
    cbn [self elements].
    by rewrite (first_match_display_blind _ _ _ Hblind t e 0 He). }
  assert (Hvalid1 : selector_valid (target_of toggle (self w1)) = true)
    by (by rewrite Htarget).
  assert (Hw2 : elements (self w2) = <[t := flipped (flipped e)]> (elements (self w))).
  { subst w2. rewrite (toggle_click_found toggle t _ w1 Hvalid1 Hfirst1 He1).
    rewrite Hw1. unfold with_elements. cbn [self elements].
    by rewrite list_insert_insert_eq. }
  split; [ | split].
  - exists (flipped e). split; [exact He1 | apply hidden_flipped].
  - exists (flipped (flipped e)). rewrite Hw2.
    split; [by rewrite list_lookup_insert_eq | ].
    split; [by rewrite !hidden_flipped, negb_involutive | ].
    split.
    { unfold flipped at 1. cbn [display set_display].
      rewrite hidden_flipped. by destruct (hidden e). }
    split; [done | ]. split; [done | ].
    intros Hd. destruct e as [tg attrs d]. unfold flipped, hidden.
    cbn [display set_display tagName attributes] in *.
    destruct Hd as [-> | ->]; reflexivity.
  - intros j Hj. rewrite Hw2. by rewrite list_lookup_insert_ne.
Qed.

Lemma double_click_restores_hidden_witness :
  let w := @loaded example_browser (season_page (str "#season-1") []) in
  let w2 := (@toggle_click example_browser 0
               (@toggle_click example_browser 0 w).2).2 in
  exists e2, elements (self w2) !! 1 = Some e2 /\ hidden e2 = false.
Proof.
  intros w w2.
  destruct (@double_click_restores_hidden example_browser w 0 1
              (Element (str "div") [(str "id", str "season-1")] []))
    as (_ & (e2 & He2 & Hh & _) & _).
  - reflexivity.
  - intros x d. reflexivity.
  - reflexivity.
  - reflexivity.
  - exists e2. split; [exact He2 | exact Hh].
Defined.

(** C10, as stated, fails.  A toggle whose [data-target] is empty
    matches no element, and clicking it raises the SyntaxError of
    [querySelector]. *)
Lemma click_without_target_counterexample :
  let w := @loaded example_browser (season_page [] []) in
  toggle_listeners (self w) = [0] /\
  target_of 0 (self w) = [] /\
  Forall (fun e => @selector_matches example_browser [] e = false)
         (elements (self w)) /\
  @toggle_click example_browser 0 w = (Throw (DOMException "SyntaxError"), w).
Proof.
  vm_compute. repeat split. repeat constructor.
Qed.

(** C10, amended.  When the [data-target] of a toggle (or the string
    [null], if it has none) is a selector and matches no element,
    clicking the toggle returns normally and leaves the page, the
    console and the network as they were. *)
Theorem click_without_target_is_noop `{Browser} (w : world page) (toggle : nat) :
  selector_valid (target_of toggle (self w)) = true ->
  Forall (fun e => selector_matches (target_of toggle (self w)) e = false)
         (elements (self w)) ->
  toggle_click toggle w = (Ok tt, w).
Proof.
  intros Hvalid Hnone. apply toggle_click_missing; [exact Hvalid | ].
  by apply first_match_none.
Qed.

Lemma click_without_target_is_noop_witness :
  let w := @loaded example_browser (season_page (str "#season-9") (str "none")) in
  @toggle_click example_browser 0 w = (Ok tt, w).
Proof.
  intros w. apply (@click_without_target_is_noop example_browser w 0).
  - reflexivity.
  - vm_compute. repeat constructor.
Defined.

End ToggleClaims.

(** ** Properties of the settings forms *)

Module SettingsFacts.
Import JS Page.

(** *** What the writes through a button reference leave alone *)

Lemma modify_world {S} (f : S -> S) (w : world S) :
  (modify f w).2 = World (f (self w)) (console w) (network w) (reactions w).
Proof. reflexivity. Qed.

Lemma notificationArea_with_button f g p :
  notificationArea (with_button f g p) = notificationArea p.
Proof. by destruct f. Qed.

Lemma pending_with_button f g p : pending (with_button f g p) = pending p.
Proof. by destruct f. Qed.

Lemma timers_with_button f g p : timers (with_button f g p) = timers p.
Proof. by destruct f. Qed.

Lemma clock_with_button f g p : clock (with_button f g p) = clock p.
Proof. by destruct f. Qed.

Lemma button_of_with_button f f' g p :
  button_of f' (with_button f g p) =
  if decide (f' = f) then g <$> button_of f' p else button_of f' p.
Proof.
  unfold button_of.
  destruct f, f'; simpl;
    try (by destruct (jackettForm p) as [[[b | ]] | ]);
    try (by destruct (qbitForm p) as [[[b | ]] | ]).
Qed.

Lemma button_of_with_button_same f g p b :
  button_of f p = Some b -> button_of f (with_button f g p) = Some (g b).
Proof.
  intros Hb. rewrite button_of_with_button, decide_True by done. by rewrite Hb.
Qed.

Lemma button_of_with_button_is_Some f f' g p :
  is_Some (button_of f' p) -> is_Some (button_of f' (with_button f g p)).
Proof.
  intros [b Hb]. rewrite button_of_with_button, Hb.
  destruct (decide (f' = f)); by eexists.
Qed.

Section Settings.
Context `{Browser}.

(** *** The chain of [saveSettings] *)

Lemma save_chain_self rid c o (w : world page) :
  self ((settle (save_chain rid c o)) w).2 =
  with_timers (fun ts => ts ++ [((clock (self w) + 5000)%N, ClearNotifications)])
    (with_button (cl_form c) (set_disabled false)
       (with_button (cl_form c) (set_textContent (originalButtonText c))
          (with_notification (notification_of o) (self w)))).
Proof.
  destruct c as [[ | ] orig]; destruct o as [e | [e | []]]; try reflexivity;
    unfold notification_of; cbn;
    destruct (to_string _); reflexivity.
Qed.

Lemma save_chain_console rid c o (w : world page) :
  console ((settle (save_chain rid c o)) w).2 =
  console w ++ match caught o with
               | Some e => [("Error:"%string, e)]
               | None => []
               end.
Proof.
  destruct o as [e | [e | []]]; try reflexivity;
    try (cbn; by rewrite app_nil_r);
    unfold caught; cbn; destruct (to_string _); cbn;
    [by rewrite app_nil_r | reflexivity].
Qed.

Lemma save_chain_network rid c o (w : world page) :
  network ((settle (save_chain rid c o)) w).2 = network w.
Proof.
  destruct o as [e | [e | []]]; try reflexivity;
    cbn; destruct (to_string _); reflexivity.
Qed.

(** *** The synchronous part of [saveSettings] *)

Lemma saveSettings_no_button data f (w : world page) :
  button_of f (self w) = None ->
  saveSettings data f w =
    (Throw (TypeError "Cannot read properties of null"), w).
Proof. intros Hb. unfold saveSettings, bind, read. by rewrite Hb. Qed.

Lemma saveSettings_no_area data f b (w : world page) :
  button_of f (self w) = Some b ->
  notificationArea (self w) = None ->
  saveSettings data f w =
    (Throw (TypeError "Cannot set properties of null"),
     World (saving f (self w)) (console w) (network w) (reactions w)).
Proof.
  intros Hb Ha. unfold saveSettings, bind, read. rewrite Hb. cbn.
  rewrite !notificationArea_with_button, Ha. reflexivity.
Qed.

Lemma saveSettings_dispatch data f b a (w : world page) :
  button_of f (self w) = Some b ->
  notificationArea (self w) = Some a ->
  saveSettings data f w =
    (let* rid := fetch (save_request data) in
     modify (with_pending (fun m => <[rid := Closure f (textContent b)]> m)))
      (World (with_notification [] (saving f (self w)))
             (console w) (network w) (reactions w)).
Proof.
  intros Hb Ha. unfold saveSettings, bind, read. rewrite Hb. cbn.
  rewrite !notificationArea_with_button, Ha. reflexivity.
Qed.

Lemma saveSettings_cases data f (w : world page) :
  (saveSettings data f w).2 = w \/
  (exists b, button_of f (self w) = Some b /\
             notificationArea (self w) = None /\
             (saveSettings data f w).2 =
             World (saving f (self w)) (console w) (network w) (reactions w)) \/
  (exists b a, button_of f (self w) = Some b /\
               notificationArea (self w) = Some a /\
               (saveSettings data f w).2 =
               World (with_pending
                        (fun m => <[length (network w) := Closure f (textContent b)]> m)
                        (with_notification [] (saving f (self w))))
                     (console w) (network w ++ [save_request data])
                     (reactions w)).
Proof.
  destruct (button_of f (self w)) as [b | ] eqn:Hb.
  - destruct (notificationArea (self w)) as [a | ] eqn:Ha.
    + right. right. exists b, a. repeat split.
      by rewrite (saveSettings_dispatch data f b a w Hb Ha).
    + right. left. exists b. repeat split.
      by rewrite (saveSettings_no_area data f b w Hb Ha).
  - left. by rewrite (saveSettings_no_button data f w Hb).
Qed.

Lemma on_submit_frame f (w : world page) :
  (on_submit f w).2 = w \/
  exists data, (on_submit f w).2 = (saveSettings data f w).2.
Proof.
  destruct f; unfold on_submit, value_of, bind, read, ret, throw; cbn beta iota.
  - destruct (inputs (self w) !! "jackett_url"%string);
      cbn beta iota; [ | by left].
    destruct (inputs (self w) !! "jackett_api_key"%string);
      cbn beta iota; [ | by left].
    right. by eexists.
  - destruct (inputs (self w) !! "qbittorrent_url"%string);
      cbn beta iota; [ | by left].
    destruct (inputs (self w) !! "qbittorrent_user"%string);
      cbn beta iota; [ | by left].
    destruct (inputs (self w) !! "qbittorrent_pass"%string);
      cbn beta iota; [ | by left].
    right. by eexists.
Qed.

Lemma toggle_click_frame toggle (w : world page) :
  exists es, (toggle_click toggle w).2 =
             World (with_elements (fun _ => es) (self w))
                   (console w) (network w) (reactions w).
Proof.
  assert (Hsame : w = World (with_elements (fun _ => elements (self w)) (self w))
                            (console w) (network w) (reactions w))
    by (by destruct w as [[] ? ? ?]).
  unfold toggle_click, querySelector, bind, read. cbn beta iota.
  destruct (selector_valid _); [ | by eexists].
  cbn beta iota. destruct (first_match _ _ _) as [t | ]; [ | by eexists].
  destruct (bool_decide _); by eexists.
Qed.

(** *** Invariants of the page loop *)

(** Counting the places where a pattern starts. *)

Lemma starts_with_stop (a : N) (p : jsstring) : forall m s : jsstring,
  forallb (fun c => negb (c =? a)%N) p = true ->
  starts_with p (m ++ a :: s) = starts_with p m.
Proof.
  induction p as [ | c p IH]; intros m s Hp; [by destruct m | ].
  simpl in Hp. apply andb_prop in Hp as (Hc & Hp).
  destruct m as [ | b m]; simpl.
  - apply negb_true_iff in Hc. by rewrite Hc.
  - by rewrite (IH m s Hp).
Qed.

Lemma occurrences_skip (pat : jsstring) (a : N) (p l r : jsstring) :
  pat = a :: p ->
  forallb (fun c => negb (c =? a)%N) l = true ->
  occurrences pat (l ++ r) = occurrences pat r.
Proof.
  intros ->. induction l as [ | c l IH]; [done | ].
  cbn [forallb]. intros (Hc & Hl)%andb_prop. apply negb_true_iff in Hc.
  change ((c :: l) ++ r) with (c :: (l ++ r)).
  change (occurrences (a :: p) (c :: (l ++ r)))
    with ((if (a =? c)%N && starts_with p (l ++ r) then 1 else 0) +
          occurrences (a :: p) (l ++ r)).
  rewrite (N.eqb_sym a c), Hc. by apply IH.
Qed.

Lemma occurrences_stop (pat : jsstring) (a : N) (p m s : jsstring) :
  pat = a :: p ->
  forallb (fun c => negb (c =? a)%N) p = true ->
  occurrences pat (m ++ a :: s) = occurrences pat m + occurrences pat (a :: s).
Proof.
  intros -> Hp. induction m as [ | b m IH]; [done | ].
  change ((b :: m) ++ a :: s) with (b :: (m ++ a :: s)).
  change (occurrences (a :: p) (b :: (m ++ a :: s)))
    with ((if (a =? b)%N && starts_with p (m ++ a :: s) then 1 else 0) +
          occurrences (a :: p) (m ++ a :: s)).
  change (occurrences (a :: p) (b :: m))
    with ((if (a =? b)%N && starts_with p m then 1 else 0) +
          occurrences (a :: p) m).
  rewrite (starts_with_stop a p m s Hp), IH. lia.
Qed.

(** A banner of either class shows once, plus whatever its message
    opens. *)
Lemma banners_alert (cls msg : jsstring) :
  cls = str "alert-success" \/ cls = str "alert-danger" ->
  banners (alert cls msg) = Datatypes.S (banners msg).
Proof.
  intros Hcls. unfold banners.
  set (pat := str "<div class=" ++ dq ++ str "alert ").
  assert (Hpat : pat = 60%N :: tail pat) by reflexivity.
  assert (Hclean : forallb (fun c => negb (c =? 60)%N) (tail pat) = true)
    by reflexivity.
  set (before := tail (str "<div class=" ++ dq ++ str "alert " ++ cls ++ dq ++
                       str " role=" ++ dq ++ str "alert" ++ dq ++ str ">")).
  assert (Hshape : alert cls msg = 60%N :: before ++ msg ++ 60%N :: str "/div>" /\
             starts_with pat (60%N :: before ++ msg ++ 60%N :: str "/div>") = true /\
             forallb (fun c => negb (c =? 60)%N) before = true).
  { subst before. destruct Hcls as [-> | ->]; (split; [reflexivity | ]);
      split; reflexivity. }
  clearbody before.
  destruct Hshape as (-> & Hstart & Hbefore).
  cbn [occurrences]. rewrite Hstart.
  rewrite (occurrences_skip pat 60 (tail pat) before _ Hpat Hbefore).
  rewrite (occurrences_stop pat 60 (tail pat) msg _ Hpat Hclean).
  assert (occurrences pat (60%N :: str "/div>") = 0) as -> by reflexivity.
  lia.
Qed.

Lemma banners_plain (text : jsstring) : plain text = true -> banners text = 0.
Proof.
  intros Hplain. unfold banners.
  set (pat := str "<div class=" ++ dq ++ str "alert ").
  rewrite <- (app_nil_r text).
  by rewrite (occurrences_skip pat 60 (tail pat) text [] eq_refl Hplain).
Qed.

Lemma step_shown ev (w w' : world page) :
  step ev w = Some w' ->
  plain_event ev = true ->
  at_most_one_shown (notificationArea (self w)) ->
  at_most_one_shown (notificationArea (self w')).
Proof.
  destruct ev as [toggle | id text | f | rid o | dt | i]; unfold step.
  - destruct (decide _); [ | done]. intros Heq%(inj Some) _. subst w'.
    by destruct (toggle_click_frame toggle w) as (es & ->).
  - destruct (inputs (self w) !! id); [ | done].
    intros Heq%(inj Some) _. by subst w'.
  - destruct (decide _); [ | done]. intros Heq%(inj Some) _ Hinv. subst w'.
    destruct (on_submit_frame f w) as [-> | (data & ->)]; [done | ].
    destruct (saveSettings_cases data f w)
      as [-> | [(b & _ & _ & ->) | (b & a & _ & _ & ->)]]; [done | | ].
    + cbn [self]. unfold saving. by rewrite !notificationArea_with_button.
    + cbn. lia.
  - destruct (pending (self w) !! rid) as [c | ]; [ | done].
    intros Heq%(inj Some) Hplain _. subst w'.
    rewrite save_chain_self. cbn [notificationArea with_timers].
    rewrite !notificationArea_with_button.
    cbn [notificationArea with_notification at_most_one_shown].
    assert (Hfallback : banners (alert (str "alert-danger") fallback_message) <= 1)
      by (vm_compute; lia).
    unfold notification_of.
    destruct o as [e | [e | v]]; try exact Hfallback.
    unfold plain_event in Hplain.
    destruct (get v "success") as [sv | ]; [ | exact Hfallback].
    destruct (get v "message") as [text | ]; [ | exact Hfallback].
    destruct (to_string text) as [printed | ]; [ | exact Hfallback].
    rewrite banners_alert, (banners_plain printed Hplain); [lia | ].
    destruct (truthy sv); [by left | by right].
  - intros Heq%(inj Some) _. by subst w'.
  - destruct (timers (self w) !! i) as [[due []] | ]; [ | done].
    destruct (due <=? clock (self w))%N; [ | done].
    intros Heq%(inj Some) _ _. subst w'. cbn. lia.
Qed.

Lemma run_shown evs : forall (w w' : world page),
  run evs w = Some w' ->
  forallb plain_event evs = true ->
  at_most_one_shown (notificationArea (self w)) ->
  at_most_one_shown (notificationArea (self w')).
Proof.
  induction evs as [ | ev evs IH]; simpl; intros w w'.
  - by intros [= <-].
  - destruct (step ev w) as [w1 | ] eqn:Hstep; [ | done].
    intros Hrun (Hev & Hevs)%andb_prop Hinv. eapply IH; [exact Hrun | exact Hevs | ].
    eapply step_shown; eauto.
Qed.

Lemma loaded_notificationArea p :
  notificationArea (self (loaded p)) = notificationArea p.
Proof.
  unfold loaded, DOMContentLoaded, querySelectorAll, bind, read.
  by destruct (selector_valid _).
Qed.

Lemma step_registered ev (w w' : world page) :
  step ev w = Some w' -> registered w -> registered w'.
Proof.
  destruct ev as [toggle | id text | f | rid o | dt | i]; unfold step.
  - destruct (decide _); [ | done]. intros Heq%(inj Some). subst w'.
    destruct (toggle_click_frame toggle w) as (es & ->). done.
  - destruct (inputs (self w) !! id); [ | done].
    intros Heq%(inj Some). by subst w'.
  - destruct (decide _); [ | done]. intros Heq%(inj Some) Hinv. subst w'.
    destruct (on_submit_frame f w) as [-> | (data & ->)]; [done | ].
    destruct (saveSettings_cases data f w)
      as [-> | [(b & Hb & _ & ->) | (b & a & Hb & _ & ->)]]; [done | | ].
    + intros rid c. cbn [self network]. unfold saving.
      rewrite !pending_with_button. intros Hc.
      destruct (Hinv rid c Hc) as (Hlt & Hsome). split; [done | ].
      by do 2 apply button_of_with_button_is_Some.
    + intros rid c. cbn [self network pending with_pending with_notification].
      unfold saving. rewrite !pending_with_button, length_app. cbn [length].
      assert (Hkeep : forall f', is_Some (button_of f' (self w)) ->
                is_Some (button_of f'
                  (with_pending
                     (fun m => <[length (network w) := Closure f (textContent b)]> m)
                     (with_notification []
                        (with_button f (set_disabled true)
                           (with_button f (set_textContent (str "Saving..."))
                              (self w))))))).
      { intros f' Hf'.
        change (is_Some (button_of f'
                  (with_button f (set_disabled true)
                     (with_button f (set_textContent (str "Saving..."))
                        (self w))))).
        by do 2 apply button_of_with_button_is_Some. }
      destruct (decide (rid = length (network w))) as [-> | Hne].
      * rewrite lookup_insert_eq. intros [= <-]. split; [lia | ].
        apply Hkeep. cbn [cl_form]. rewrite Hb. by eexists.
      * rewrite lookup_insert_ne by done. intros Hc.
        destruct (Hinv rid c Hc) as (Hlt & Hsome). split; [lia | ].
        by apply Hkeep.
  - destruct (pending (self w) !! rid) as [c | ] eqn:Hc; [ | done].
    intros Heq%(inj Some) Hinv. subst w'. intros rid' c'.
    rewrite save_chain_self, save_chain_network, modify_world.
    cbn [self network pending with_timers].
    rewrite !pending_with_button. cbn [pending with_notification with_pending].
    intros Hc'. apply lookup_delete_Some in Hc' as (Hne & Hc').
    destruct (Hinv rid' c' Hc') as (Hlt & Hsome). split; [done | ].
    change (is_Some (button_of (cl_form c')
              (with_button (cl_form c) (set_disabled false)
                 (with_button (cl_form c) (set_textContent (originalButtonText c))
                    (with_notification (notification_of o)
                       (with_pending (fun m => delete rid m) (self w))))))).
    by do 2 apply button_of_with_button_is_Some.
  - intros Heq%(inj Some). by subst w'.
  - destruct (timers (self w) !! i) as [[due []] | ]; [ | done].
    destruct (due <=? clock (self w))%N; [ | done].
    intros Heq%(inj Some). by subst w'.
Qed.

(** A closure stays registered until its own request settles. *)
Lemma step_pending ev rid c (w w' : world page) :
  step ev w = Some w' -> registered w ->
  pending (self w) !! rid = Some c ->
  (forall o, ev <> Settle rid o) ->
  pending (self w') !! rid = Some c.
Proof.
  destruct ev as [toggle | id text | f | rid' o | dt | i]; unfold step.
  - destruct (decide _); [ | done]. intros Heq%(inj Some). subst w'.
    by destruct (toggle_click_frame toggle w) as (es & ->).
  - destruct (inputs (self w) !! id); [ | done].
    intros Heq%(inj Some). by subst w'.
  - destruct (decide _); [ | done]. intros Heq%(inj Some) Hinv Hc _. subst w'.
    destruct (on_submit_frame f w) as [-> | (data & ->)]; [done | ].
    destruct (saveSettings_cases data f w)
      as [-> | [(b & Hb & _ & ->) | (b & a & Hb & _ & ->)]]; [done | | ].
    + cbn [self]. unfold saving. by rewrite !pending_with_button.
    + cbn [self pending with_pending with_notification]. unfold saving.
      rewrite !pending_with_button.
      destruct (Hinv rid c Hc) as (Hlt & _).
      rewrite lookup_insert_ne by lia. done.
  - destruct (pending (self w) !! rid') as [c' | ] eqn:Hc'; [ | done].
    intros Heq%(inj Some) Hinv Hc Hev. subst w'.
    rewrite save_chain_self, modify_world. cbn [pending with_timers].
    rewrite !pending_with_button. cbn [self pending with_notification with_pending].
    rewrite lookup_delete_ne; [done | ]. intros ->. by apply (Hev o).
  - intros Heq%(inj Some). by subst w'.
  - destruct (timers (self w) !! i) as [[due []] | ]; [ | done].
    destruct (due <=? clock (self w))%N; [ | done].
    intros Heq%(inj Some). by subst w'.
Qed.

Lemma run_pending evs rid c : forall (w w' : world page),
  run evs w = Some w' -> registered w ->
  pending (self w) !! rid = Some c ->
  Forall (fun ev => forall o, ev <> Settle rid o) evs ->
  pending (self w') !! rid = Some c /\ registered w'.
Proof.
  induction evs as [ | ev evs IH]; simpl; intros w w'.
  - by intros [= <-].
  - destruct (step ev w) as [w1 | ] eqn:Hstep; [ | done].
    intros Hrun Hinv Hc Hall. inversion Hall as [ | ? ? Hev Hrest]; subst.
    eapply (IH w1 w'); [exact Hrun | | | exact Hrest].
    + eapply step_registered; eauto.
    + eapply step_pending; eauto.
Qed.

Lemma run_registered evs : forall (w w' : world page),
  run evs w = Some w' -> registered w -> registered w'.
Proof.
  induction evs as [ | ev evs IH]; simpl; intros w w'.
  - by intros [= <-].
  - destruct (step ev w) as [w1 | ] eqn:Hstep; [ | done].
    intros Hrun Hinv. eapply IH; [exact Hrun | ].
    eapply step_registered; eauto.
Qed.

Lemma loaded_registered p : pending p = ∅ -> registered (loaded p).
Proof.
  intros Hp rid c.
  unfold loaded, DOMContentLoaded, querySelectorAll, bind, read.
  destruct (selector_valid _); cbn; rewrite Hp; by rewrite lookup_empty.
Qed.

Lemma settle_step rid c o (w : world page) :
  pending (self w) !! rid = Some c ->
  step (Settle rid o) w =
  Some ((settle (save_chain rid c o))
          (World (with_pending (fun m => delete rid m) (self w))
                 (console w) (network w) (reactions w))).2.
Proof. intros Hc. unfold step. by rewrite Hc. Qed.

Lemma button_after_chain rid c o b (w : world page) :
  button_of (cl_form c) (self w) = Some b ->
  button_of (cl_form c) (self ((settle (save_chain rid c o)) w).2)
  = Some (Button (originalButtonText c) false).
Proof.
  intros Hb. rewrite save_chain_self.
  change (button_of (cl_form c)
            (with_button (cl_form c) (set_disabled false)
               (with_button (cl_form c) (set_textContent (originalButtonText c))
                  (with_notification (notification_of o) (self w))))
          = Some (Button (originalButtonText c) false)).
  rewrite (button_of_with_button_same _ _ _
             (set_textContent (originalButtonText c) b)); [reflexivity | ].
  apply button_of_with_button_same. exact Hb.
Qed.

End Settings.
End SettingsFacts.

(** ** The settings forms against their specification *)

Module SettingsClaims.
Import JS Page Examples SettingsFacts.

(** C6. When the request of a submission settles with a body whose
    [success] is [true] and whose [message] is [Saved], the notification
    area holds one banner, of class [alert-success] and with the text
    [Saved], and a timer is set 5000 ms ahead.  The banner stays while
    only time passes; that timer cannot fire before the 5000 ms are over
    and empties the area when it fires after them; and no timer, on any
    page, fires before it is due or leaves anything in the area. *)
Theorem saved_banner_lives_five_seconds `{Browser}
    (w : world page) (rid : nat) (c : closure) (body : value) :
  pending (self w) !! rid = Some c ->
  get body "success" = Ok (Bool true) ->
  get body "message" = Ok (Str (str "Saved")) ->
  let banner := alert (str "alert-success") (str "Saved") in
  let k := length (timers (self w)) in
  exists w1,
    step (Settle rid (Responded (Decoded body))) w = Some w1 /\
    notificationArea (self w1) = Some banner /\
    banners banner = 1 /\
    timers (self w1) =
      timers (self w) ++ [((clock (self w) + 5000)%N, ClearNotifications)] /\
    (forall dt w2, step (Elapse dt) w1 = Some w2 ->
                   notificationArea (self w2) = Some banner) /\
    (forall dt, (dt < 5000)%N -> run [Elapse dt; Timeout k] w1 = None) /\
    (forall dt, (5000 <= dt)%N ->
       exists w3, run [Elapse dt; Timeout k] w1 = Some w3 /\
                  notificationArea (self w3) = Some [] /\
                  timers (self w3) = timers (self w)) /\
    (forall (v v' : world page) i,
        step (Timeout i) v = Some v' ->
        notificationArea (self v') = Some [] /\
        exists due t, timers (self v) !! i = Some (due, t) /\
                      (due <= clock (self v))%N).
Proof.
  intros Hc Hsuccess Hmessage banner k.
  eexists. split; [by apply settle_step | ].
  set (w0 := World (with_pending (fun m => delete rid m) (self w))
                   (console w) (network w) (reactions w)).
  assert (Hself := save_chain_self rid c (Responded (Decoded body)) w0).
  set (w1 := ((settle (save_chain rid c (Responded (Decoded body)))) w0).2) in *.
  clearbody w1.
  assert (Hbanner : notification_of (Responded (Decoded body)) = banner).
  { unfold notification_of. by rewrite Hsuccess, Hmessage. }
  rewrite Hbanner in Hself.
  assert (Harea : notificationArea (self w1) = Some banner).
  { rewrite Hself. cbn [notificationArea with_timers].
    by rewrite !notificationArea_with_button. }
  assert (Htimers : timers (self w1) =
            timers (self w) ++ [((clock (self w) + 5000)%N, ClearNotifications)]).
  { rewrite Hself. cbn [timers with_timers].
    by rewrite !timers_with_button. }
  assert (Hclock : clock (self w1) = clock (self w)).
  { rewrite Hself. cbn [clock with_timers]. by rewrite !clock_with_button. }
  assert (Hk : forall dt,
             timers (self (modify (with_clock (fun t => (t + dt)%N)) w1).2) !! k
             = Some ((clock (self w) + 5000)%N, ClearNotifications)).
  { intros dt. cbn. rewrite Htimers. subst k.
    rewrite lookup_app_r by lia. by rewrite Nat.sub_diag. }
  split; [exact Harea | ]. split; [by vm_compute | ]. split; [exact Htimers | ].
  split; [ | split; [ | split]].
  - intros dt w2 Heq%(inj Some). by subst w2.
  - intros dt Hdt. cbn [run]. unfold step at 1. unfold step.
    rewrite Hk. cbn [self clock with_clock modify snd]. rewrite Hclock.
    assert ((clock (self w) + 5000 <=? clock (self w) + dt)%N = false) as ->
      by (apply N.leb_gt; lia).
    done.
  - intros dt Hdt. cbn [run]. unfold step at 1. unfold step.
    rewrite Hk. cbn [self clock with_clock modify snd]. rewrite Hclock.
    assert ((clock (self w) + 5000 <=? clock (self w) + dt)%N = true) as ->
      by (apply N.leb_le; lia).
    eexists. split; [reflexivity | ]. split; [reflexivity | ].
    cbn. rewrite Htimers. subst k.
    rewrite delete_take_drop.
  rewrite take_app_length, drop_ge by (rewrite length_app; simpl; lia).
    by rewrite app_nil_r.
  - intros v v' i. unfold step.
    destruct (timers (self v) !! i) as [[due []] | ]; [ | done].
    destruct (due <=? clock (self v))%N eqn:Hdue; [ | done].
    intros Heq%(inj Some). subst v'. split; [reflexivity | ].
    exists due, ClearNotifications. split; [reflexivity | by apply N.leb_le].
Qed.

Lemma saved_banner_lives_five_seconds_witness :
  let w := (on_submit jackett_settings_form
              (@loaded example_browser admin_page)).2 in
  pending (self w) !! 0 = Some (Closure jackett_settings_form (str "Save")) /\
  get saved_body "success" = Ok (Bool true) /\
  get saved_body "message" = Ok (Str (str "Saved")) /\
  exists w1,
    @step example_browser (Settle 0 (Responded (Decoded saved_body))) w = Some w1 /\
    notificationArea (self w1) = Some (alert (str "alert-success") (str "Saved")).
Proof.
  intros w.
  assert (Hc : pending (self w) !! 0
               = Some (Closure jackett_settings_form (str "Save")))
    by (vm_compute; reflexivity).
  assert (Hs : get saved_body "success" = Ok (Bool true)) by reflexivity.
  assert (Hm : get saved_body "message" = Ok (Str (str "Saved"))) by reflexivity.
  split; [exact Hc | ]. split; [exact Hs | ]. split; [exact Hm | ].
  destruct (@saved_banner_lives_five_seconds example_browser w 0 _ saved_body
              Hc Hs Hm)
    as (w1 & Hstep & Harea & _).
  exists w1. split; [exact Hstep | exact Harea].
Defined.

(** C7. When the fetch of a submission rejects, or its response does
    not decode, the notification area holds one banner, of class
    [alert-danger] and with the fixed fallback text, and the error is
    on the console.  And whatever the outcome, and whatever happened on
    the page between the submission and its settlement, the submit
    button of the form is enabled afterwards and carries the label it
    had when the form was submitted. *)
Theorem failed_save_falls_back_and_restores `{Browser} :
  (forall (w : world page) rid c e o,
      pending (self w) !! rid = Some c ->
      o = Rejected e \/ o = Responded (Malformed e) ->
      exists w1,
        step (Settle rid o) w = Some w1 /\
        notificationArea (self w1)
          = Some (alert (str "alert-danger") fallback_message) /\
        banners (alert (str "alert-danger") fallback_message) = 1 /\
        console w1 = console w ++ [("Error:"%string, e)]) /\
  (forall (p : page) evs0 (w0 : world page) f b w0' evs w1 o,
      pending p = ∅ ->
      run evs0 (loaded p) = Some w0 ->
      button_of f (self w0) = Some b ->
      step (Submit f) w0 = Some w0' ->
      length (network w0') = Datatypes.S (length (network w0)) ->
      run evs w0' = Some w1 ->
      Forall (fun ev => forall o', ev <> Settle (length (network w0)) o') evs ->
      exists w2,
        step (Settle (length (network w0)) o) w1 = Some w2 /\
        button_of f (self w2) = Some (Button (textContent b) false)).
Proof.
  split.
  - intros w rid c e o Hc Ho. eexists. split; [by apply settle_step | ].
    rewrite save_chain_self, save_chain_console.
    cbn [notificationArea with_timers]. rewrite !notificationArea_with_button.
    split; [ | split; [by vm_compute | ]]; by destruct Ho as [-> | ->].
  - intros p evs0 w0 f b w0' evs w1 o Hp Hrun0 Hb Hsubmit Hgrow Hrun Hquiet.
    assert (Hreg0 : registered w0)
      by (eapply run_registered; [exact Hrun0 | by apply loaded_registered]).
    assert (Hreg0' : registered w0') by (eapply step_registered; eauto).
    assert (Hc : pending (self w0') !! length (network w0)
                 = Some (Closure f (textContent b))).
    { revert Hsubmit Hgrow. unfold step.
      destruct (decide _); [ | done]. intros Heq%(inj Some). subst w0'.
      destruct (on_submit_frame f w0) as [-> | (data & ->)]; [lia | ].
      destruct (saveSettings_cases data f w0)
        as [-> | [(b' & _ & _ & ->) | (b' & a & Hb' & _ & ->)]];
        [lia | cbn [network]; lia | ].
      intros _. rewrite Hb in Hb'. injection Hb' as <-.
      cbn [self pending with_pending]. by rewrite lookup_insert_eq. }
    destruct (run_pending evs _ _ w0' w1 Hrun Hreg0' Hc Hquiet) as (Hc1 & Hreg1).
    destruct (Hreg1 _ _ Hc1) as (_ & (b1 & Hb1)). cbn [cl_form] in Hb1.
    eexists. split; [by apply settle_step | ].
    apply (button_after_chain (length (network w0))
             (Closure f (textContent b)) o b1). exact Hb1.
Qed.

Lemma failed_save_falls_back_and_restores_witness :
  let w0 := @loaded example_browser admin_page in
  let w0' := (on_submit jackett_settings_form w0).2 in
  let failure := Rejected (TypeError "Failed to fetch") in
  (exists w1,
      @step example_browser (Settle 0 failure) w0' = Some w1 /\
      notificationArea (self w1)
        = Some (alert (str "alert-danger") fallback_message)) /\
  (exists w2,
      @step example_browser (Settle 0 failure) w0' = Some w2 /\
      button_of jackett_settings_form (self w2)
        = Some (Button (str "Save") false)).
Proof.
  intros w0 w0' failure.
  destruct (@failed_save_falls_back_and_restores example_browser)
    as (Hfail & Hrestore).
  split.
  - destruct (Hfail w0' 0 (Closure jackett_settings_form (str "Save"))
                    (TypeError "Failed to fetch") failure)
      as (w1 & Hstep & Harea & _).
    + vm_compute. reflexivity.
    + left. reflexivity.
    + exists w1. split; [exact Hstep | exact Harea].
  - apply (Hrestore admin_page [] w0 jackett_settings_form
                    (Button (str "Save") false) w0' [] w0' failure).
    + reflexivity.
    + reflexivity.
    + reflexivity.
    + vm_compute. reflexivity.
    + reflexivity.
    + reflexivity.
    + constructor.
Defined.

(** C9, as stated, fails.  One submission, answered with a message that
    is itself the markup of a banner, leaves two banners in the
    notification area: the one the template writes and the one inside
    it. *)
Lemma one_banner_counterexample :
  let evs := [Submit jackett_settings_form;
              Settle 0 (Responded (Decoded markup_body))] in
  at_most_one_shown (notificationArea admin_page) /\
  exists w html,
    @run example_browser evs (@loaded example_browser admin_page) = Some w /\
    notificationArea (self w) = Some html /\
    banners html = 2 /\
    ~ at_most_one_shown (notificationArea (self w)).
Proof.
  split; [vm_compute; lia | ].
  eexists _, _. split; [vm_compute; reflexivity | ].
  split; [reflexivity | ].
  split; [vm_compute; reflexivity | ].
  vm_compute. lia.
Qed.

(** C9, amended.  A call of [saveSettings] that issues its request has
    emptied the notification area before the fetch; and on a page whose
    area starts with at most one banner, after any sequence of clicks,
    inputs, submissions, settlements, timers and lapses of time in which
    every message a response brings prints without markup, the area
    shows at most one banner. *)
Theorem one_banner_at_a_time `{Browser} :
  (forall data f (w : world page),
      network (saveSettings data f w).2 = network w \/
      exists cleared c,
        notificationArea (self cleared) = Some [] /\
        network cleared = network w /\
        saveSettings data f w =
        (let* rid := fetch (save_request data) in
         modify (with_pending (fun m => <[rid := c]> m))) cleared) /\
  (forall (p : page) evs (w : world page),
      at_most_one_shown (notificationArea p) ->
      forallb plain_event evs = true ->
      run evs (loaded p) = Some w ->
      at_most_one_shown (notificationArea (self w))).
Proof.
  split.
  - intros data f w.
    destruct (button_of f (self w)) as [b | ] eqn:Hb.
    + destruct (notificationArea (self w)) as [a | ] eqn:Ha.
      * right. eexists _, _. split; [ | split];
          [ | | exact (saveSettings_dispatch data f b a w Hb Ha)]; done.
      * left. by rewrite (saveSettings_no_area data f b w Hb Ha).
    + left. by rewrite (saveSettings_no_button data f w Hb).
  - intros p evs w Hone Hplain Hrun. eapply run_shown; [exact Hrun | exact Hplain | ].
    by rewrite loaded_notificationArea.
Qed.

Lemma one_banner_at_a_time_witness :
  let evs := [Submit jackett_settings_form; Submit jackett_settings_form;
              Settle 0 (Responded (Decoded saved_body));
              Settle 1 (Rejected (TypeError "Failed to fetch"));
              Elapse 5000; Timeout 0] in
  at_most_one_shown (notificationArea admin_page) /\
  forallb (@plain_event example_browser) evs = true /\
  exists w, @run example_browser evs (@loaded example_browser admin_page) = Some w /\
            at_most_one_shown (notificationArea (self w)).
Proof.
  intros evs.
  assert (Hone : at_most_one_shown (notificationArea admin_page))
    by (vm_compute; lia).
  assert (Hplain : forallb (@plain_event example_browser) evs = true)
    by (vm_compute; reflexivity).
  split; [exact Hone | ]. split; [exact Hplain | ].
  assert (Hrun : exists w, @run example_browser evs
                             (@loaded example_browser admin_page) = Some w).
  { eexists. vm_compute. reflexivity. }
  destruct Hrun as (w & Hrun). exists w. split; [exact Hrun | ].
  exact (proj2 (@one_banner_at_a_time example_browser) admin_page evs w
           Hone Hplain Hrun).
Defined.

End SettingsClaims.

(** ** More about the search widget and the media lists *)

Module ScriptsExtras.
Import JS Outcome ScriptsFacts.

(** *** [trim] *)

Lemma length_trim_start (s : jsstring) : length (trim_start s) <= length s.
Proof.
  induction s as [ | c s IH]; simpl; [lia | ].
  destruct (is_white_space c); simpl; lia.
Qed.

Lemma length_trim (s : jsstring) : length (trim s) <= length s.
Proof.
  unfold trim, trim_end. rewrite length_rev.
  etransitivity; [apply length_trim_start | ]. rewrite length_rev.
  apply length_trim_start.
Qed.

Lemma trim_start_blank (pad s : jsstring) :
  forallb is_white_space pad = true -> trim_start (pad ++ s) = trim_start s.
Proof.
  induction pad as [ | c pad IH]; simpl; [done | ].
  intros [Hc Hpad]%andb_prop. rewrite Hc. by apply IH.
Qed.

Lemma forallb_rev_blank (pad : jsstring) :
  forallb is_white_space pad = true -> forallb is_white_space (rev pad) = true.
Proof.
  intros Hpad. apply forallb_forall. intros c Hc%in_rev.
  by apply (proj1 (forallb_forall _ _) Hpad).
Qed.

Lemma trim_of_blanks (q : jsstring) :
  forallb is_white_space q = true -> trim q = [].
Proof.
  intros Hq. unfold trim.
  replace q with (q ++ []) by apply app_nil_r.
  by rewrite (trim_start_blank q [] Hq).
Qed.

(** Padding goes from both ends, and what stands between the first and
    the last code unit that is no white space stays. *)
Lemma trim_padded (pad1 pad2 mid : jsstring) (a b : N) :
  forallb is_white_space pad1 = true ->
  forallb is_white_space pad2 = true ->
  is_white_space a = false -> is_white_space b = false ->
  trim (pad1 ++ a :: mid ++ b :: pad2) = a :: mid ++ [b].
Proof.
  intros Hp1 Hp2 Ha Hb. unfold trim, trim_end.
  rewrite (trim_start_blank pad1 _ Hp1). simpl. rewrite Ha.
  replace (rev (a :: mid ++ b :: pad2))
    with (rev pad2 ++ b :: rev (a :: mid)).
  2:{ change (a :: mid ++ b :: pad2) with ((a :: mid) ++ [b] ++ pad2).
      rewrite !rev_app_distr. simpl. by rewrite <- !app_assoc. }
  rewrite (trim_start_blank _ _ (forallb_rev_blank pad2 Hp2)).
  cbn [trim_start]. rewrite Hb.
  change (b :: rev (a :: mid)) with ([b] ++ rev (a :: mid)).
  rewrite rev_app_distr, rev_involutive. reflexivity.
Qed.

(** [search()] on a query whose trimmed length is below three. *)
Lemma search_below_three (w : world Search.data) :
  length (trim (Search.query (self w))) < 3 ->
  Search.search w =
  (Ok tt, World (Search.set_searched false
                   (Search.set_results (Arr []) (self w)))
                (console w) (network w) (reactions w)).
Proof.
  intros Hshort. apply trim_short_or_long in Hshort.
  unfold Search.search, bind, read. simpl. by rewrite Hshort.
Qed.

Lemma search_from_three (w : world Search.data) :
  3 <= length (trim (Search.query (self w))) ->
  Search.search w =
  (Ok tt, World (Search.set_searched true (Search.set_loading true (self w)))
                (console w)
                (network w ++ [Search.search_request (Search.query (self w))])
                (reactions w)).
Proof.
  intros Hlong.
  assert (Hnb : (length (trim (Search.query (self w))) <? 3) = false)
    by (apply Nat.ltb_ge; exact Hlong).
  unfold Search.search, bind, read. simpl. by rewrite Hnb.
Qed.

(** X1. A query of fewer than three code units, and a query of white
    space only however long, never reaches the network: [search()]
    returns with [results] emptied, [searched] false and everything else
    as it was. *)
Theorem search_ignores_short_and_blank (w : world Search.data) :
  length (Search.query (self w)) < 3 \/
  forallb is_white_space (Search.query (self w)) = true ->
  Search.search w =
  (Ok tt, World (Search.set_searched false
                   (Search.set_results (Arr []) (self w)))
                (console w) (network w) (reactions w)).
Proof.
  intros Hq. apply search_below_three.
  destruct Hq as [Hlen | Hblank].
  - pose proof (length_trim (Search.query (self w))). lia.
  - rewrite (trim_of_blanks _ Hblank). simpl. lia.
Qed.

Lemma search_ignores_short_and_blank_witness :
  let w := World (Search.Data (str "        ") (Arr [Str (str "old")]) false true)
                 [] [] [] in
  (length (Search.query (self w)) < 3 \/
   forallb is_white_space (Search.query (self w)) = true) /\
  network (Search.search w).2 = [] /\
  Search.results (self (Search.search w).2) = Arr [].
Proof.
  intros w.
  assert (Hq : length (Search.query (self w)) < 3 \/
               forallb is_white_space (Search.query (self w)) = true)
    by (right; reflexivity).
  split; [exact Hq | ].
  rewrite (search_ignores_short_and_blank w Hq). split; reflexivity.
Defined.

(** X2. The length test looks at the trimmed query, the request carries
    the query as typed: with white space around a core of at least three
    code units, [search()] sends one request whose [query] field still
    has the padding. *)
Theorem search_sends_padding (w : world Search.data)
    (pad1 pad2 mid : jsstring) (a b : N) :
  Search.query (self w) = pad1 ++ a :: mid ++ b :: pad2 ->
  forallb is_white_space pad1 = true ->
  forallb is_white_space pad2 = true ->
  is_white_space a = false -> is_white_space b = false ->
  mid <> [] ->
  trim (Search.query (self w)) = a :: mid ++ [b] /\
  network (Search.search w).2 =
    network w ++ [Search.search_request (pad1 ++ a :: mid ++ b :: pad2)] /\
  Search.loading (self (Search.search w).2) = true /\
  Search.searched (self (Search.search w).2) = true.
Proof.
  intros Hq Hp1 Hp2 Ha Hb Hmid.
  assert (Htrim : trim (Search.query (self w)) = a :: mid ++ [b])
    by (rewrite Hq; by apply trim_padded).
  split; [exact Htrim | ].
  rewrite search_from_three.
  - cbn [network self]. by rewrite Hq.
  - rewrite Htrim. simpl. rewrite length_app. simpl.
    destruct mid; [done | simpl; lia].
Qed.

Lemma search_sends_padding_witness :
  let w := World (Search.set_query (str "  dune ") Search.jackettSearch) [] [] [] in
  network (Search.search w).2 = [Search.search_request (str "  dune ")].
Proof.
  intros w.
  refine (proj1 (proj2 (search_sends_padding w (str "  ") (str " ") (str "un")
                          100%N 101%N _ _ _ _ _ _)));
    try reflexivity.
  discriminate.
Defined.

(** *** Several requests in flight *)

Lemma search_settles (st : Loop.state Search.data) (a : nat) (o : outcome) :
  Loop.in_flight st a ->
  Loop.step Search.call Search.search_chain (Loop.Settle a o) st =
  Some (Loop.State ((settle (Search.search_chain a o)) (Loop.now st)).2
                   ({[a]} ∪ Loop.settled st)).
Proof. intros Ha. unfold Loop.step. by rewrite decide_True. Qed.

Lemma still_in_flight (st : Loop.state Search.data) (a b : nat) (o : outcome) :
  Loop.in_flight st b -> a <> b ->
  Loop.in_flight
    (Loop.State ((settle (Search.search_chain a o)) (Loop.now st)).2
                ({[a]} ∪ Loop.settled st)) b.
Proof.
  intros [Hlt Hnew] Hab. split; cbn [Loop.now Loop.settled].
  - by rewrite search_chain_network.
  - intros [Heq%elem_of_singleton | Hin]%elem_of_union; [by apply Hab | done].
Qed.

(** X3. With two requests in flight, the response that arrives last
    decides [results], whichever request it answers: if it decodes to a
    body other than [null], [results] is what that body gives, and
    otherwise [results] is what the first response left.  Nothing tells
    the answer to the older request from the answer to the newer one. *)
Theorem last_response_wins (st : Loop.state Search.data)
    (a b : nat) (oa ob : outcome) :
  Loop.in_flight st a -> Loop.in_flight st b -> a <> b ->
  exists st1 st2,
    Loop.step Search.call Search.search_chain (Loop.Settle a oa) st = Some st1 /\
    Loop.step Search.call Search.search_chain (Loop.Settle b ob) st1 = Some st2 /\
    Search.results (self (Loop.now st2)) =
      match payload ob with
      | Some r => r
      | None => Search.results (self (Loop.now st1))
      end /\
    Search.query (self (Loop.now st2)) = Search.query (self (Loop.now st)) /\
    Search.searched (self (Loop.now st2)) = Search.searched (self (Loop.now st)).
Proof.
  intros Ha Hb Hab. eexists _, _.
  split; [by apply search_settles | ].
  split; [apply search_settles; by apply still_in_flight | ].
  cbn [Loop.now]. rewrite !search_chain_self.
  destruct (payload ob), (payload oa); done.
Qed.

Lemma last_response_wins_witness :
  let evs := [Loop.Call (Search.SetQuery (str "dune")); Loop.Call Search.CallSearch;
              Loop.Call (Search.SetQuery (str "dune 2")); Loop.Call Search.CallSearch] in
  let newer := Responded (Decoded (Arr [Str (str "Dune: Part Two")])) in
  let older := Responded (Decoded (Arr [Str (str "Dune")])) in
  exists st st1 st2,
    Loop.run Search.call Search.search_chain evs (Loop.boot Search.jackettSearch)
      = Some st /\
    Loop.step Search.call Search.search_chain (Loop.Settle 1 newer) st = Some st1 /\
    Loop.step Search.call Search.search_chain (Loop.Settle 0 older) st1 = Some st2 /\
    Search.query (self (Loop.now st2)) = str "dune 2" /\
    Search.results (self (Loop.now st2)) = Arr [Str (str "Dune")].
Proof.
  intros evs newer older.
  assert (Hst : exists st,
             Loop.run Search.call Search.search_chain evs
                      (Loop.boot Search.jackettSearch) = Some st /\
             Loop.in_flight st 1 /\ Loop.in_flight st 0 /\
             Search.query (self (Loop.now st)) = str "dune 2").
  { eexists. split; [vm_compute; reflexivity | ].
    split; [ | split; [ | reflexivity]];
      (split; [cbn; lia | apply not_elem_of_empty]). }
  destruct Hst as (st & Hrun & H1 & H0 & Hq).
  destruct (last_response_wins st 1 0 newer older H1 H0 ltac:(discriminate))
    as (st1 & st2 & Hs1 & Hs2 & Hr & Hq2 & _).
  exists st, st1, st2.
  split; [exact Hrun | ]. split; [exact Hs1 | ]. split; [exact Hs2 | ].
  split; [by rewrite Hq2 | exact Hr].
Defined.

(** X4. [loading] goes false at the first settlement, also while another
    request of the same widget is still in flight. *)
Theorem loading_drops_at_first_settlement (st : Loop.state Search.data)
    (a b : nat) (o : outcome) :
  Loop.in_flight st a -> Loop.in_flight st b -> a <> b ->
  exists st1,
    Loop.step Search.call Search.search_chain (Loop.Settle a o) st = Some st1 /\
    Search.loading (self (Loop.now st1)) = false /\
    Loop.in_flight st1 b.
Proof.
  intros Ha Hb Hab. eexists. split; [by apply search_settles | ].
  split; [ | by apply still_in_flight].
  cbn [Loop.now]. by rewrite search_chain_self.
Qed.

Lemma loading_drops_at_first_settlement_witness :
  let evs := [Loop.Call (Search.SetQuery (str "dune")); Loop.Call Search.CallSearch;
              Loop.Call Search.CallSearch] in
  exists st st1,
    Loop.run Search.call Search.search_chain evs (Loop.boot Search.jackettSearch)
      = Some st /\
    Loop.step Search.call Search.search_chain
              (Loop.Settle 0 (Rejected (TypeError "Failed to fetch"))) st = Some st1 /\
    Search.loading (self (Loop.now st1)) = false /\
    Loop.in_flight st1 1.
Proof.
  intros evs.
  assert (Hst : exists st,
             Loop.run Search.call Search.search_chain evs
                      (Loop.boot Search.jackettSearch) = Some st /\
             Loop.in_flight st 0 /\ Loop.in_flight st 1).
  { eexists. split; [vm_compute; reflexivity | ].
    split; (split; [cbn; lia | apply not_elem_of_empty]). }
  destruct Hst as (st & Hrun & H0 & H1).
  destruct (loading_drops_at_first_settlement st 0 1
              (Rejected (TypeError "Failed to fetch")) H0 H1 ltac:(discriminate))
    as (st1 & Hs & Hl & Hf).
  exists st, st1.
  split; [exact Hrun | ]. split; [exact Hs | ]. split; [exact Hl | exact Hf].
Defined.

Lemma search_call_keeps (m : Search.method) (w : world Search.data) :
  reactions (Search.call m w).2 = reactions w /\
  (exists more, network (Search.call m w).2 = network w ++ more) /\
  (Search.loading (self w) = true ->
   Search.loading (self (Search.call m w).2) = true).
Proof.
  destruct m as [q | ].
  - split; [reflexivity | ]. split; [ | done].
    exists []. cbn. by rewrite app_nil_r.
  - unfold Search.call.
    destruct (decide (length (trim (Search.query (self w))) < 3)) as [Hs | Hl].
    + rewrite (search_below_three w Hs).
      split; [reflexivity | ]. split; [ | done].
      exists []. cbn. by rewrite app_nil_r.
    + rewrite (search_from_three w ltac:(lia)).
      split; [reflexivity | ]. split; [by eexists | done].
Qed.

(** X5. Nothing but a settlement ends a request or resets [loading]:
    whatever is typed and however often [search()] is called, every
    request in flight stays in flight, no [finally] callback runs, and
    [loading], once true, stays true. *)
Theorem calls_never_settle (ms : list Search.method) :
  forall st : Loop.state Search.data,
  exists st',
    Loop.run Search.call Search.search_chain (Loop.Call <$> ms) st = Some st' /\
    Loop.settled st' = Loop.settled st /\
    reactions (Loop.now st') = reactions (Loop.now st) /\
    (forall rid, Loop.in_flight st rid -> Loop.in_flight st' rid) /\
    (Search.loading (self (Loop.now st)) = true ->
     Search.loading (self (Loop.now st')) = true).
Proof.
  induction ms as [ | m ms IH]; intros st.
  - exists st. split; [reflexivity | ]. auto.
  - cbn [fmap list_fmap Loop.run Loop.step].
    destruct (search_call_keeps m (Loop.now st)) as (Hr & (more & Hn) & Hl).
    destruct (IH (Loop.State (Search.call m (Loop.now st)).2 (Loop.settled st)))
      as (st' & Hrun & Hs & Hr' & Hf & Hl').
    exists st'. split; [exact Hrun | ]. cbn [Loop.now Loop.settled] in *.
    split; [exact Hs | ]. split; [by rewrite Hr' | ]. split.
    + intros rid [Hlt Hnew]. apply Hf. split; cbn [Loop.now Loop.settled]; [ | done].
      rewrite Hn, length_app. lia.
    + intros Htrue. by apply Hl', Hl.
Qed.

Lemma calls_never_settle_witness :
  let st := Loop.State (World (Search.Data (str "dune") (Arr []) true true) []
                              [Search.search_request (str "dune")] []) ∅ in
  exists st',
    Loop.run Search.call Search.search_chain
             (Loop.Call <$> [Search.SetQuery (str "x"); Search.CallSearch]) st
      = Some st' /\
    Loop.in_flight st' 0 /\
    Search.loading (self (Loop.now st')) = true.
Proof.
  intros st.
  destruct (calls_never_settle [Search.SetQuery (str "x"); Search.CallSearch] st)
    as (st' & Hrun & _ & _ & Hf & Hl).
  exists st'. split; [exact Hrun | ]. split.
  - apply Hf. split; [cbn; lia | apply not_elem_of_empty].
  - apply Hl. reflexivity.
Defined.

(** *** Failures of the media lists, and the body [null] *)

Lemma init_chain_console rid o (w : world Media.data) :
  console ((settle (Media.init_chain rid o)) w).2 =
  console w ++ match failed o with
               | Some e => [("Fetch Error:"%string, e)]
               | None => []
               end.
Proof.
  destruct o as [e | [e | v]]; try reflexivity.
  unfold failed. cbn. unfold Media.on_data, bind, lift.
  destruct (get v "error") as [x | e]; cbn; [ | reflexivity].
  by rewrite app_nil_r.
Qed.

(** X6. A media list treats a failure as the search widget does: when
    its fetch rejects or the body does not decode, the error goes to the
    console under [Fetch Error:], [results] keeps its value and
    [loading] becomes false; so a list that fails on its one request
    stays empty. *)
Theorem media_failure_is_logged (rid : nat) (e : exn) :
  (forall (w : world Media.data) o,
      o = Rejected e \/ o = Responded (Malformed e) ->
      let w' := ((settle (Media.init_chain rid o)) w).2 in
      console w' = console w ++ [("Fetch Error:"%string, e)] /\
      Media.results (self w') = Media.results (self w) /\
      Media.loading (self w') = false /\
      network w' = network w) /\
  (forall mediaType limit o,
      o = Rejected e \/ o = Responded (Malformed e) ->
      self ((settle (Media.init_chain rid o))
              (Media.availableMedia_init mediaType limit
                 (World (Media.availableMedia mediaType limit) [] [] [])).2).2
      = Media.Data (Arr []) false) /\
  (forall mediaType o,
      o = Rejected e \/ o = Responded (Malformed e) ->
      self ((settle (Media.init_chain rid o))
              (Media.recentMedia_init mediaType
                 (World (Media.recentMedia mediaType) [] [] [])).2).2
      = Media.Data (Arr []) false).
Proof.
  repeat apply conj.
  - intros w o Ho w'. subst w'.
    rewrite init_chain_console, init_chain_self.
    by destruct Ho as [-> | ->].
  - intros mediaType limit o Ho. rewrite init_chain_self.
    by destruct Ho as [-> | ->].
  - intros mediaType o Ho. rewrite init_chain_self.
    by destruct Ho as [-> | ->].
Qed.

Lemma media_failure_is_logged_witness :
  let e := SyntaxError "Unexpected token" in
  self ((settle (Media.init_chain 0 (Responded (Malformed e))))
          (Media.recentMedia_init (str "movie")
             (World (Media.recentMedia (str "movie")) [] [] [])).2).2
  = Media.Data (Arr []) false.
Proof.
  intros e.
  apply (proj2 (proj2 (media_failure_is_logged 0 e)) (str "movie")).
  right. reflexivity.
Defined.

(** X7. A response whose body decodes to [null] counts as a failure in
    all three widgets: reading [data.error] throws, the TypeError is
    logged under [Fetch Error:], [results] keeps its value and [loading]
    becomes false.  Any other decoded body logs nothing. *)
Theorem null_body_is_a_failure (rid : nat) :
  (forall w : world Search.data,
      let w' := ((settle (Search.search_chain rid (Responded (Decoded Null)))) w).2 in
      console w' = console w
                   ++ [("Fetch Error:"%string, TypeError "Cannot read properties")] /\
      Search.results (self w') = Search.results (self w) /\
      Search.loading (self w') = false) /\
  (forall w : world Media.data,
      let w' := ((settle (Media.init_chain rid (Responded (Decoded Null)))) w).2 in
      console w' = console w
                   ++ [("Fetch Error:"%string, TypeError "Cannot read properties")] /\
      Media.results (self w') = Media.results (self w) /\
      Media.loading (self w') = false) /\
  (forall body e, get body "error" = Ok e ->
      (forall w : world Search.data,
          console ((settle (Search.search_chain rid (Responded (Decoded body)))) w).2
          = console w) /\
      (forall w : world Media.data,
          console ((settle (Media.init_chain rid (Responded (Decoded body)))) w).2
          = console w)).
Proof.
  repeat apply conj.
  - intros w w'. subst w'. by rewrite search_chain_console, search_chain_self.
  - intros w w'. subst w'. by rewrite init_chain_console, init_chain_self.
  - intros body e He. split; intros w.
    + rewrite search_chain_console. unfold failed. rewrite He. apply app_nil_r.
    + rewrite init_chain_console. unfold failed. rewrite He. apply app_nil_r.
Qed.

Lemma null_body_is_a_failure_witness :
  let body := Obj [(str "error", Str (str "indexer down"))] in
  console ((settle (Search.search_chain 0 (Responded (Decoded body))))
             (World Search.jackettSearch [] [] [])).2 = [].
Proof.
  intros body.
  apply (proj1 (proj2 (proj2 (null_body_is_a_failure 0)) body
                      (Str (str "indexer down")) eq_refl)).
Defined.

End ScriptsExtras.

(** ** More about the page script *)

Module PageExtras.
Import JS Page Examples ToggleFacts SettingsFacts.

Lemma listeners_with_button f g p :
  toggle_listeners (with_button f g p) = toggle_listeners p /\
  submit_listeners (with_button f g p) = submit_listeners p /\
  elements (with_button f g p) = elements p /\
  inputs (with_button f g p) = inputs p.
Proof. by destruct f. Qed.

Lemma button_of_other f f' g p :
  f <> f' -> button_of f (with_button f' g p) = button_of f p.
Proof. intros Hne. by rewrite button_of_with_button, decide_False. Qed.

(** *** What [DOMContentLoaded] binds *)

Lemma elem_of_all_matches `{Browser} sel (es : list element) : forall (k i : nat),
  i ∈ all_matches sel k es <->
  k <= i /\ exists e, es !! (i - k) = Some e /\ selector_matches sel e = true.
Proof.
  induction es as [ | x es IH]; intros k i; simpl.
  - split; [by intros ?%elem_of_nil | by intros (_ & e & ? & _)].
  - assert (Hshift : forall e,
              k < i -> (x :: es) !! (i - k) = Some e <-> es !! (i - Datatypes.S k) = Some e).
    { intros e Hlt. replace (i - k) with (Datatypes.S (i - Datatypes.S k)) by lia. done. }
    destruct (selector_matches sel x) eqn:Hx.
    + rewrite elem_of_cons, IH. split.
      * intros [-> | (Hle & e & He & Hm)].
        -- split; [lia | ]. exists x. by rewrite Nat.sub_diag.
        -- split; [lia | ]. exists e. split; [by apply Hshift | done].
      * intros (Hle & e & He & Hm).
        destruct (decide (i = k)) as [-> | Hne]; [by left | right].
        split; [lia | ]. exists e. split; [apply Hshift; [lia | done] | done].
    + rewrite IH. split.
      * intros (Hle & e & He & Hm).
        split; [lia | ]. exists e. split; [by apply Hshift | done].
      * intros (Hle & e & He & Hm).
        destruct (decide (i = k)) as [-> | Hne].
        -- rewrite Nat.sub_diag in He. injection He as ->. congruence.
        -- split; [lia | ]. exists e. split; [apply Hshift; [lia | done] | done].
Qed.

Lemma loaded_valid `{Browser} (p : page) :
  selector_valid (str ".season-toggle") = true ->
  loaded p =
  World (with_listeners
           (all_matches (str ".season-toggle") 0 (elements p))
           (match jackettForm p with Some _ => [jackett_settings_form] | None => [] end ++
            match qbitForm p with Some _ => [qbittorrent_settings_form] | None => [] end)
           p) [] [] [].
Proof.
  intros Hvalid. unfold loaded, DOMContentLoaded, querySelectorAll, bind, read.
  by rewrite Hvalid.
Qed.

(** No listener binds or unbinds a listener. *)
Lemma step_listeners `{Browser} ev (w w' : world page) :
  step ev w = Some w' ->
  toggle_listeners (self w') = toggle_listeners (self w) /\
  submit_listeners (self w') = submit_listeners (self w).
Proof.
  destruct ev as [toggle | id text | f | rid o | dt | i]; unfold step.
  - destruct (decide _); [ | done]. intros Heq%(inj Some). subst w'.
    by destruct (toggle_click_frame toggle w) as (es & ->).
  - destruct (inputs (self w) !! id); [ | done].
    intros Heq%(inj Some). by subst w'.
  - destruct (decide _); [ | done]. intros Heq%(inj Some). subst w'.
    destruct (on_submit_frame f w) as [-> | (data & ->)]; [done | ].
    destruct (saveSettings_cases data f w)
      as [-> | [(b & _ & _ & ->) | (b & a & _ & _ & ->)]]; [done | | ];
      cbn [self toggle_listeners submit_listeners with_pending with_notification];
      unfold saving;
      destruct (listeners_with_button f (set_disabled true)
                  (with_button f (set_textContent (str "Saving...")) (self w)))
        as (-> & -> & _);
      by destruct (listeners_with_button f (set_textContent (str "Saving..."))
                     (self w)) as (-> & -> & _).
  - destruct (pending (self w) !! rid) as [c | ]; [ | done].
    intros Heq%(inj Some). subst w'. rewrite save_chain_self, modify_world.
    cbn [toggle_listeners submit_listeners with_timers].
    destruct (listeners_with_button (cl_form c) (set_disabled false)
                (with_button (cl_form c) (set_textContent (originalButtonText c))
                   (with_notification (notification_of o)
                      (self (World (with_pending (fun m => delete rid m) (self w))
                                   (console w) (network w) (reactions w))))))
      as (-> & -> & _).
    by destruct (listeners_with_button (cl_form c)
                   (set_textContent (originalButtonText c))
                   (with_notification (notification_of o)
                      (self (World (with_pending (fun m => delete rid m) (self w))
                                   (console w) (network w) (reactions w)))))
      as (-> & -> & _).
  - intros Heq%(inj Some). by subst w'.
  - destruct (timers (self w) !! i) as [[due []] | ]; [ | done].
    destruct (due <=? clock (self w))%N; [ | done].
    intros Heq%(inj Some). by subst w'.
Qed.

Lemma run_listeners `{Browser} evs : forall (w w' : world page),
  run evs w = Some w' ->
  toggle_listeners (self w') = toggle_listeners (self w) /\
  submit_listeners (self w') = submit_listeners (self w).
Proof.
  induction evs as [ | ev evs IH]; simpl; intros w w'.
  - by intros [= <-].
  - destruct (step ev w) as [w1 | ] eqn:Hstep; [ | done].
    intros Hrun. destruct (IH _ _ Hrun) as (-> & ->).
    by eapply step_listeners.
Qed.

(** X8. When the page has loaded, a click listener sits on exactly the
    elements that matched [.season-toggle] at that moment, and a submit
    listener on exactly those of the two settings forms that exist;
    nothing that happens later binds or unbinds one.  So a form that is
    absent is never submitted, and an element that is no toggle never
    toggles. *)
Theorem listeners_follow_the_document `{Browser} (p : page) evs (w : world page) :
  selector_valid (str ".season-toggle") = true ->
  run evs (loaded p) = Some w ->
  (forall i : nat,
      i ∈ toggle_listeners (self w) <->
      exists e, elements p !! i = Some e /\
                selector_matches (str ".season-toggle") e = true) /\
  (forall f, f ∈ submit_listeners (self w) <-> is_Some (form_of f p)) /\
  (forall f, form_of f p = None -> step (Submit f) w = None) /\
  (forall (i : nat) e,
      elements p !! i = Some e ->
      selector_matches (str ".season-toggle") e = false ->
      step (Click i) w = None).
Proof.
  intros Hvalid Hrun.
  destruct (run_listeners _ _ _ Hrun) as (Ht & Hs).
  rewrite (loaded_valid p Hvalid) in Ht, Hs. cbn in Ht, Hs.
  assert (Htoggles : forall i : nat,
             i ∈ toggle_listeners (self w) <->
             exists e, elements p !! i = Some e /\
                       selector_matches (str ".season-toggle") e = true).
  { intros i. rewrite Ht, elem_of_all_matches, Nat.sub_0_r.
    split; [by intros (_ & He) | intros He; split; [lia | done]]. }
  assert (Hforms : forall f, f ∈ submit_listeners (self w) <-> is_Some (form_of f p)).
  { intros f. rewrite Hs.
    destruct f, (jackettForm p) as [fj | ] eqn:Hj, (qbitForm p) as [fq | ] eqn:Hq;
      cbn; rewrite ?Hj, ?Hq; split;
      try (by intros _; eexists);
      try (by intros [? [=]]);
      try (by intros ?%elem_of_nil);
      try (intros _; by repeat constructor);
      try (by intros [[=] | ?%elem_of_nil]%elem_of_cons). }
  split; [exact Htoggles | ]. split; [exact Hforms | ]. split.
  - intros f Hf. unfold step. rewrite decide_False; [done | ].
    rewrite Hforms, Hf. by intros [? [=]].
  - intros i e He Hm. unfold step. rewrite decide_False; [done | ].
    rewrite Htoggles. intros (e' & He' & Hm'). congruence.
Qed.

Lemma listeners_follow_the_document_witness :
  let p := season_page (str "#season-1") [] in
  @selector_valid example_browser (str ".season-toggle") = true /\
  exists w,
    @run example_browser [Click 0; Click 0] (@loaded example_browser p) = Some w /\
    @step example_browser (Submit jackett_settings_form) w = None /\
    @step example_browser (Click 1) w = None.
Proof.
  intros p. split; [reflexivity | ].
  assert (Hrun : exists w, @run example_browser [Click 0; Click 0]
                             (@loaded example_browser p) = Some w)
    by (eexists; vm_compute; reflexivity).
  destruct Hrun as (w & Hrun). exists w. split; [exact Hrun | ].
  destruct (@listeners_follow_the_document example_browser p [Click 0; Click 0] w
              eq_refl Hrun) as (_ & _ & Hsubmit & Hclick).
  split.
  - apply Hsubmit. reflexivity.
  - apply (Hclick 1 (Element (str "div") [(str "id", str "season-1")] []));
      reflexivity.
Defined.

(** *** Submitting a settings form *)

Lemma on_submit_jackett (w : world page) url key :
  inputs (self w) !! "jackett_url"%string = Some url ->
  inputs (self w) !! "jackett_api_key"%string = Some key ->
  on_submit jackett_settings_form w =
  saveSettings (Obj [(str "jackett_url", Str url);
                     (str "jackett_api_key", Str key)])
               jackett_settings_form w.
Proof.
  intros Hurl Hkey.
  unfold on_submit, value_of, bind, read, ret, throw; cbn beta iota.
  rewrite Hurl; cbn beta iota. by rewrite Hkey.
Qed.

Lemma on_submit_qbit (w : world page) url user pass :
  inputs (self w) !! "qbittorrent_url"%string = Some url ->
  inputs (self w) !! "qbittorrent_user"%string = Some user ->
  inputs (self w) !! "qbittorrent_pass"%string = Some pass ->
  on_submit qbittorrent_settings_form w =
  saveSettings (Obj [(str "qbittorrent_url", Str url);
                     (str "qbittorrent_user", Str user);
                     (str "qbittorrent_pass", Str pass)])
               qbittorrent_settings_form w.
Proof.
  intros Hurl Huser Hpass.
  unfold on_submit, value_of, bind, read, ret, throw; cbn beta iota.
  rewrite Hurl; cbn beta iota. rewrite Huser; cbn beta iota. by rewrite Hpass.
Qed.

Lemma saveSettings_sent data f b a (w : world page) :
  button_of f (self w) = Some b ->
  notificationArea (self w) = Some a ->
  saveSettings data f w =
  (Ok tt,
   World (with_pending
            (fun m => <[length (network w) := Closure f (textContent b)]> m)
            (with_notification [] (saving f (self w))))
         (console w) (network w ++ [save_request data]) (reactions w)).
Proof. intros Hb Ha. by rewrite (saveSettings_dispatch data f b a w Hb Ha). Qed.

(** X9. A submission sends what the inputs hold at that moment and
    nothing else: one POST to /admin/save_settings with the JSON content
    type, whose body is the object of the two Jackett fields, or of the
    three qBittorrent fields, in the order of the source.  By then the
    button is busy, the notification area is empty, and the callbacks
    are registered with the label the button had. *)
Theorem submit_sends_the_fields (w : world page) (b : button) (a : jsstring) :
  notificationArea (self w) = Some a ->
  (forall url key,
      button_of jackett_settings_form (self w) = Some b ->
      inputs (self w) !! "jackett_url"%string = Some url ->
      inputs (self w) !! "jackett_api_key"%string = Some key ->
      on_submit jackett_settings_form w =
      (Ok tt,
       World (with_pending
                (fun m => <[length (network w) :=
                              Closure jackett_settings_form (textContent b)]> m)
                (with_notification [] (saving jackett_settings_form (self w))))
             (console w)
             (network w ++
                [Request "POST" (str "/admin/save_settings")
                         [("Content-Type", "application/json")%string]
                         (JSON_stringify
                            (Obj [(str "jackett_url", Str url);
                                  (str "jackett_api_key", Str key)]))])
             (reactions w))) /\
  (forall url user pass,
      button_of qbittorrent_settings_form (self w) = Some b ->
      inputs (self w) !! "qbittorrent_url"%string = Some url ->
      inputs (self w) !! "qbittorrent_user"%string = Some user ->
      inputs (self w) !! "qbittorrent_pass"%string = Some pass ->
      on_submit qbittorrent_settings_form w =
      (Ok tt,
       World (with_pending
                (fun m => <[length (network w) :=
                              Closure qbittorrent_settings_form (textContent b)]> m)
                (with_notification [] (saving qbittorrent_settings_form (self w))))
             (console w)
             (network w ++
                [Request "POST" (str "/admin/save_settings")
                         [("Content-Type", "application/json")%string]
                         (JSON_stringify
                            (Obj [(str "qbittorrent_url", Str url);
                                  (str "qbittorrent_user", Str user);
                                  (str "qbittorrent_pass", Str pass)]))])
             (reactions w))) /\
  (forall f, button_of f (self w) = Some b ->
             busy f (with_notification [] (saving f (self w))) /\
             notificationArea (with_notification [] (saving f (self w))) = Some []).
Proof.
  intros Ha. repeat apply conj.
  - intros url key Hb Hurl Hkey.
    rewrite (on_submit_jackett w url key Hurl Hkey).
    by rewrite (saveSettings_sent _ _ b a w Hb Ha).
  - intros url user pass Hb Hurl Huser Hpass.
    rewrite (on_submit_qbit w url user pass Hurl Huser Hpass).
    by rewrite (saveSettings_sent _ _ b a w Hb Ha).
  - intros f Hb. split; [ | reflexivity].
    unfold busy, saving.
    change (button_of f
              (with_button f (set_disabled true)
                 (with_button f (set_textContent (str "Saving...")) (self w)))
            = Some (Button (str "Saving...") true)).
    rewrite (button_of_with_button_same f _ _
               (set_textContent (str "Saving...") b)); [reflexivity | ].
    by apply button_of_with_button_same.
Qed.

Lemma submit_sends_the_fields_witness :
  let w := (modify (with_inputs
                      (fun m => <["jackett_api_key"%string := str "rotated"]> m))
                   (@loaded example_browser admin_page)).2 in
  network (on_submit jackett_settings_form w).2 =
  [save_request (Obj [(str "jackett_url", Str (str "http://jackett:9117"));
                      (str "jackett_api_key", Str (str "rotated"))])].
Proof.
  intros w.
  assert (Ha : notificationArea (self w) = Some []) by reflexivity.
  rewrite (proj1 (submit_sends_the_fields w (Button (str "Save") false) [] Ha)
                 (str "http://jackett:9117") (str "rotated")).
  - reflexivity.
  - reflexivity.
  - vm_compute. reflexivity.
  - vm_compute. reflexivity.
Defined.

(** X10. A submission that cannot read one of its inputs, or finds no
    submit button in its form, throws before it has changed anything:
    the page is as it was, no request has left, nothing is registered. *)
Theorem submit_fails_before_any_effect (w : world page) :
  (inputs (self w) !! "jackett_url"%string = None \/
   inputs (self w) !! "jackett_api_key"%string = None \/
   button_of jackett_settings_form (self w) = None ->
   exists e, on_submit jackett_settings_form w = (Throw e, w)) /\
  (inputs (self w) !! "qbittorrent_url"%string = None \/
   inputs (self w) !! "qbittorrent_user"%string = None \/
   inputs (self w) !! "qbittorrent_pass"%string = None \/
   button_of qbittorrent_settings_form (self w) = None ->
   exists e, on_submit qbittorrent_settings_form w = (Throw e, w)).
Proof.
  split.
  - intros Hmiss.
    destruct (inputs (self w) !! "jackett_url"%string) as [url | ] eqn:Hurl.
    2:{ eexists. unfold on_submit, value_of, bind, read, ret, throw; cbn beta iota.
        by rewrite Hurl. }
    destruct (inputs (self w) !! "jackett_api_key"%string) as [key | ] eqn:Hkey.
    2:{ eexists. unfold on_submit, value_of, bind, read, ret, throw; cbn beta iota.
        rewrite Hurl; cbn beta iota. by rewrite Hkey. }
    destruct Hmiss as [[=] | [[=] | Hb]].
    eexists. rewrite (on_submit_jackett w url key Hurl Hkey).
    by apply saveSettings_no_button.
  - intros Hmiss.
    destruct (inputs (self w) !! "qbittorrent_url"%string) as [url | ] eqn:Hurl.
    2:{ eexists. unfold on_submit, value_of, bind, read, ret, throw; cbn beta iota.
        by rewrite Hurl. }
    destruct (inputs (self w) !! "qbittorrent_user"%string) as [user | ] eqn:Huser.
    2:{ eexists. unfold on_submit, value_of, bind, read, ret, throw; cbn beta iota.
        rewrite Hurl; cbn beta iota. by rewrite Huser. }
    destruct (inputs (self w) !! "qbittorrent_pass"%string) as [pass | ] eqn:Hpass.
    2:{ eexists. unfold on_submit, value_of, bind, read, ret, throw; cbn beta iota.
        rewrite Hurl; cbn beta iota. rewrite Huser; cbn beta iota.
        by rewrite Hpass. }
    destruct Hmiss as [[=] | [[=] | [[=] | Hb]]].
    eexists. rewrite (on_submit_qbit w url user pass Hurl Huser Hpass).
    by apply saveSettings_no_button.
Qed.

Lemma submit_fails_before_any_effect_witness :
  let w := @loaded example_browser admin_page in
  exists e, on_submit qbittorrent_settings_form w = (Throw e, w).
Proof.
  intros w. apply (proj2 (submit_fails_before_any_effect w)).
  left. vm_compute. reflexivity.
Defined.

(** *** The busy state of a form *)

Lemma busy_saving f f' p : busy f p -> busy f (saving f' p).
Proof.
  unfold busy, saving. intros Hb.
  destruct (decide (f = f')) as [<- | Hne].
  - rewrite (button_of_with_button_same f _ _
               (set_textContent (str "Saving...") (Button (str "Saving...") true)));
      [reflexivity | ].
    by apply button_of_with_button_same.
  - by rewrite !button_of_other.
Qed.

Lemma step_busy `{Browser} f ev (w w' : world page) :
  busy f (self w) -> step ev w = Some w' ->
  (forall rid o c, ev = Settle rid o -> pending (self w) !! rid = Some c ->
                   cl_form c <> f) ->
  busy f (self w').
Proof.
  intros Hbusy.
  destruct ev as [toggle | id text | f' | rid o | dt | i]; unfold step.
  - destruct (decide _); [ | done]. intros Heq%(inj Some) _. subst w'.
    by destruct (toggle_click_frame toggle w) as (es & ->).
  - destruct (inputs (self w) !! id); [ | done].
    intros Heq%(inj Some) _. by subst w'.
  - destruct (decide _); [ | done]. intros Heq%(inj Some) _. subst w'.
    destruct (on_submit_frame f' w) as [-> | (data & ->)]; [done | ].
    destruct (saveSettings_cases data f' w)
      as [-> | [(b & _ & _ & ->) | (b & a & _ & _ & ->)]]; [done | | ].
    + by apply busy_saving.
    + by apply (busy_saving f f' (self w)).
  - destruct (pending (self w) !! rid) as [c | ] eqn:Hc; [ | done].
    intros Heq%(inj Some) Hother. subst w'.
    rewrite save_chain_self, modify_world. unfold busy.
    change (button_of f
              (with_button (cl_form c) (set_disabled false)
                 (with_button (cl_form c) (set_textContent (originalButtonText c))
                    (with_notification (notification_of o)
                       (with_pending (fun m => delete rid m) (self w)))))
            = Some (Button (str "Saving...") true)).
    assert (Hne : f <> cl_form c)
      by (intros ->; by apply (Hother rid o c)).
    by rewrite !button_of_other.
  - intros Heq%(inj Some) _. by subst w'.
  - destruct (timers (self w) !! i) as [[due []] | ]; [ | done].
    destruct (due <=? clock (self w))%N; [ | done].
    intros Heq%(inj Some) _. by subst w'.
Qed.

(** X11. From its dispatch on, a form stays busy through every event but
    the settlement of a request of that same form: clicks, typing, time,
    timers, a submission of either form and the settlement of a request
    of the other form leave its button disabled and labelled
    [Saving...]. *)
Theorem busy_until_own_settlement `{Browser} f ev (w w' : world page) :
  busy f (self w) -> step ev w = Some w' ->
  (forall rid o c, ev = Settle rid o -> pending (self w) !! rid = Some c ->
                   cl_form c <> f) ->
  busy f (self w').
Proof. apply step_busy. Qed.

Lemma busy_until_own_settlement_witness :
  let w := (on_submit qbittorrent_settings_form
              (on_submit jackett_settings_form
                 (@loaded example_browser both_forms_page)).2).2 in
  busy jackett_settings_form (self w) /\
  exists w',
    @step example_browser (Settle 1 (Responded (Decoded saved_body))) w = Some w' /\
    busy jackett_settings_form (self w') /\
    button_of qbittorrent_settings_form (self w')
      = Some (Button (str "Save qBittorrent") false).
Proof.
  intros w.
  assert (Hbusy : busy jackett_settings_form (self w)) by (vm_compute; reflexivity).
  split; [exact Hbusy | ].
  assert (Hstep : exists w',
             @step example_browser (Settle 1 (Responded (Decoded saved_body))) w
             = Some w' /\
             button_of qbittorrent_settings_form (self w')
             = Some (Button (str "Save qBittorrent") false)).
  { eexists. split; [vm_compute; reflexivity | reflexivity]. }
  destruct Hstep as (w' & Hstep & Hq). exists w'.
  split; [exact Hstep | ]. split; [ | exact Hq].
  apply (@busy_until_own_settlement example_browser jackett_settings_form
           (Settle 1 (Responded (Decoded saved_body))) w w' Hbusy Hstep).
  intros rid o c [= <- _] Hc. vm_compute in Hc. injection Hc as <-. discriminate.
Defined.

(** *** A page without the notification element *)

Lemma step_silent `{Browser} ev (w w' : world page) :
  step ev w = Some w' -> silent w -> silent w'.
Proof.
  intros Hstep (Hn & Ha & Hp & Ht). revert Hstep.
  destruct ev as [toggle | id text | f | rid o | dt | i]; unfold step.
  - destruct (decide _); [ | done]. intros Heq%(inj Some). subst w'.
    by destruct (toggle_click_frame toggle w) as (es & ->).
  - destruct (inputs (self w) !! id); [ | done].
    intros Heq%(inj Some). by subst w'.
  - destruct (decide _); [ | done]. intros Heq%(inj Some). subst w'.
    destruct (on_submit_frame f w) as [-> | (data & ->)]; [done | ].
    destruct (saveSettings_cases data f w)
      as [-> | [(b & _ & _ & ->) | (b & a & _ & Ha' & _)]]; [done | | congruence].
    unfold silent, saving. cbn [self network].
    by rewrite !notificationArea_with_button, !pending_with_button,
               !timers_with_button.
  - by rewrite Hp, lookup_empty.
  - intros Heq%(inj Some). by subst w'.
  - by rewrite Ht.
Qed.

Lemma run_silent `{Browser} f evs : forall (w w' : world page),
  run evs w = Some w' -> silent w ->
  silent w' /\ (busy f (self w) -> busy f (self w')).
Proof.
  induction evs as [ | ev evs IH]; simpl; intros w w'.
  - by intros [= <-].
  - destruct (step ev w) as [w1 | ] eqn:Hstep; [ | done].
    intros Hrun Hs.
    destruct (IH w1 w' Hrun (step_silent ev w w1 Hstep Hs)) as (Hs' & Hb').
    split; [exact Hs' | ]. intros Hb. apply Hb'.
    apply (step_busy f ev w w1 Hb Hstep).
    intros rid o c _ Hc. destruct Hs as (_ & _ & Hp & _).
    by rewrite Hp, lookup_empty in Hc.
Qed.

(** X12. On a page that has no [settings-notifications] element nothing
    is ever sent: a submission makes its button busy, then throws on the
    write to the missing element, before the fetch; no callback is
    registered, so no event re-enables the button, which stays disabled
    and labelled [Saving...] for good. *)
Theorem without_notification_area `{Browser} (p : page) evs (w : world page) :
  notificationArea p = None -> pending p = ∅ -> timers p = [] ->
  run evs (loaded p) = Some w ->
  network w = [] /\
  pending (self w) = ∅ /\
  (forall data f b,
      button_of f (self w) = Some b ->
      saveSettings data f w =
        (Throw (TypeError "Cannot set properties of null"),
         World (saving f (self w)) (console w) (network w) (reactions w)) /\
      busy f (saving f (self w))) /\
  (forall f evs' w',
      busy f (self w) -> run evs' w = Some w' ->
      busy f (self w') /\ network w' = []).
Proof.
  intros Ha Hp Ht Hrun.
  assert (Hs0 : silent (loaded p)).
  { unfold silent. rewrite loaded_notificationArea.
    unfold loaded, DOMContentLoaded, querySelectorAll, bind, read.
    by destruct (selector_valid _). }
  destruct (run_silent jackett_settings_form evs _ _ Hrun Hs0) as (Hs & _).
  destruct Hs as (Hn & Ha' & Hp' & Ht').
  split; [exact Hn | ]. split; [exact Hp' | ]. split.
  - intros data f b Hb. split; [exact (saveSettings_no_area data f b w Hb Ha') | ].
    unfold busy, saving.
    rewrite (button_of_with_button_same f _ _
               (set_textContent (str "Saving...") b)); [reflexivity | ].
    by apply button_of_with_button_same.
  - intros f evs' w' Hb Hrun'.
    destruct (run_silent f evs' w w' Hrun' (conj Hn (conj Ha' (conj Hp' Ht'))))
      as ((Hn' & _) & Hb').
    split; [by apply Hb' | exact Hn'].
Qed.

Lemma without_notification_area_witness :
  let evs := [Submit jackett_settings_form; Elapse 60000;
              Input "jackett_url"%string (str "http://other");
              Submit jackett_settings_form] in
  exists w,
    @run example_browser evs (@loaded example_browser page_without_area) = Some w /\
    network w = [] /\
    button_of jackett_settings_form (self w) = Some (Button (str "Saving...") true).
Proof.
  intros evs.
  assert (Hrun : exists w, @run example_browser evs
                             (@loaded example_browser page_without_area) = Some w /\
                           button_of jackett_settings_form (self w)
                           = Some (Button (str "Saving...") true))
    by (eexists; split; [vm_compute; reflexivity | reflexivity]).
  destruct Hrun as (w & Hrun & Hb). exists w. split; [exact Hrun | ].
  split; [ | exact Hb].
  exact (proj1 (@without_notification_area example_browser page_without_area evs w
                  eq_refl eq_refl eq_refl Hrun)).
Defined.

(** *** Settlements and timers *)

Lemma save_chain_reactions `{Browser} rid c o (w : world page) :
  exists rs,
    reactions ((settle (save_chain rid c o)) w).2 = reactions w ++ rs /\
    filter (fun x => x.2 = OnFinally) rs = [(rid, OnFinally)].
Proof.
  destruct o as [e | [e | v]].
  - exists [(rid, OnRejected); (rid, OnFinally)]. split; [ | reflexivity].
    cbn. by rewrite <- !app_assoc.
  - exists [(rid, OnFulfilled); (rid, OnRejected); (rid, OnFinally)].
    split; [ | reflexivity]. cbn. by rewrite <- !app_assoc.
  - assert (Hcases :
      (exists x text, get v "success" = Ok x /\ get v "message" = Ok text) \/
      (exists e, get v "success" = Throw e)).
    { destruct v; try (left; by eexists _, _); right; by eexists. }
    destruct Hcases as [(x & text & Hs & Hm) | (e & Hs)].
    + destruct (to_string text) as [printed | e] eqn:Ht.
      * exists [(rid, OnFulfilled); (rid, OnFulfilled); (rid, OnFinally)].
        split; [ | reflexivity].
        unfold save_chain, on_result.
        destruct v; try discriminate Hs; cbn in Hm; injection Hm as <-;
          cbn; rewrite ?Ht; cbn; by rewrite <- !app_assoc.
      * exists [(rid, OnFulfilled); (rid, OnFulfilled); (rid, OnRejected);
                (rid, OnFinally)].
        split; [ | reflexivity].
        unfold save_chain, on_result.
        destruct v; try discriminate Hs; cbn in Hm; injection Hm as <-;
          cbn; rewrite ?Ht; cbn; by rewrite <- !app_assoc.
    + exists [(rid, OnFulfilled); (rid, OnFulfilled); (rid, OnRejected);
              (rid, OnFinally)].
      split; [ | reflexivity].
      destruct v; try discriminate Hs; cbn; by rewrite <- !app_assoc.
Qed.

(** X13. A settlement is final and always ends the same way: whatever the
    outcome, the [finally] callback runs once, one clearing timer is set
    5000 ms ahead, no request is sent, and the callbacks are gone, so
    the same request cannot settle a second time. *)
Theorem settlement_is_final `{Browser} (w : world page) rid c o :
  pending (self w) !! rid = Some c ->
  exists w1,
    step (Settle rid o) w = Some w1 /\
    pending (self w1) = delete rid (pending (self w)) /\
    timers (self w1) =
      timers (self w) ++ [((clock (self w) + 5000)%N, ClearNotifications)] /\
    network w1 = network w /\
    finalizations rid w1 = Datatypes.S (finalizations rid w) /\
    elements (self w1) = elements (self w) /\
    inputs (self w1) = inputs (self w) /\
    forall o', step (Settle rid o') w1 = None.
Proof.
  intros Hc. eexists. split; [by apply settle_step | ].
  set (w0 := World (with_pending (fun m => delete rid m) (self w))
                   (console w) (network w) (reactions w)).
  assert (Hself := save_chain_self rid c o w0).
  assert (Hnet := save_chain_network rid c o w0).
  destruct (save_chain_reactions rid c o w0) as (rs & Hr & Hrs).
  set (w1 := ((settle (save_chain rid c o)) w0).2) in *. clearbody w1.
  assert (Hp : pending (self w1) = delete rid (pending (self w))).
  { rewrite Hself. cbn [pending with_timers]. by rewrite !pending_with_button. }
  split; [exact Hp | ]. split.
  { rewrite Hself. cbn [timers with_timers]. by rewrite !timers_with_button. }
  split; [exact Hnet | ]. split.
  { rewrite (LoopFacts.finalizations_settled rid rid w0 w1 rs Hr Hrs).
    rewrite decide_True by done. unfold finalizations. cbn. lia. }
  split.
  { rewrite Hself. cbn [elements with_timers].
    destruct (listeners_with_button (cl_form c) (set_disabled false)
                (with_button (cl_form c) (set_textContent (originalButtonText c))
                   (with_notification (notification_of o) (self w0))))
      as (_ & _ & -> & _).
    by destruct (listeners_with_button (cl_form c)
                   (set_textContent (originalButtonText c))
                   (with_notification (notification_of o) (self w0)))
      as (_ & _ & -> & _). }
  split.
  { rewrite Hself. cbn [inputs with_timers].
    destruct (listeners_with_button (cl_form c) (set_disabled false)
                (with_button (cl_form c) (set_textContent (originalButtonText c))
                   (with_notification (notification_of o) (self w0))))
      as (_ & _ & _ & ->).
    by destruct (listeners_with_button (cl_form c)
                   (set_textContent (originalButtonText c))
                   (with_notification (notification_of o) (self w0)))
      as (_ & _ & _ & ->). }
  intros o'. unfold step. by rewrite Hp, lookup_delete_eq.
Qed.

Lemma settlement_is_final_witness :
  let w := (on_submit jackett_settings_form
              (@loaded example_browser admin_page)).2 in
  exists w1,
    @step example_browser (Settle 0 (Rejected (TypeError "Failed to fetch"))) w
      = Some w1 /\
    timers (self w1) = [(5000%N, ClearNotifications)] /\
    @step example_browser (Settle 0 (Responded (Decoded saved_body))) w1 = None.
Proof.
  intros w.
  destruct (@settlement_is_final example_browser w 0
              (Closure jackett_settings_form (str "Save"))
              (Rejected (TypeError "Failed to fetch")))
    as (w1 & Hstep & _ & Ht & _ & _ & _ & _ & Hagain).
  - vm_compute. reflexivity.
  - exists w1. split; [exact Hstep | ]. split; [exact Ht | apply Hagain].
Defined.

(** X14. The pending clear of an earlier submission is never cancelled:
    a submission leaves the timers as they are, and once an older timer
    is due it fires and empties the area, whatever stands in it and
    however recently it was written.  A banner can therefore be gone
    well before its own 5000 ms are over. *)
Theorem stale_timer_wipes_banner `{Browser} (w : world page) rid c o
    (i : nat) due t dt :
  pending (self w) !! rid = Some c ->
  timers (self w) !! i = Some (due, t) ->
  (due <= clock (self w) + dt)%N ->
  (forall f, timers (self (on_submit f w).2) = timers (self w)) /\
  exists w1 w2 w3,
    step (Settle rid o) w = Some w1 /\
    notificationArea (self w1) = Some (notification_of o) /\
    step (Elapse dt) w1 = Some w2 /\
    notificationArea (self w2) = Some (notification_of o) /\
    step (Timeout i) w2 = Some w3 /\
    notificationArea (self w3) = Some [] /\
    timers (self w3) =
      delete i (timers (self w) ++ [((clock (self w) + 5000)%N, ClearNotifications)]).
Proof.
  intros Hc Hi Hdue. split.
  - intros f. destruct (on_submit_frame f w) as [-> | (data & ->)]; [done | ].
    destruct (saveSettings_cases data f w)
      as [-> | [(b & _ & _ & ->) | (b & a & _ & _ & ->)]]; [done | | ];
      cbn [self timers with_pending with_notification]; unfold saving;
      by rewrite !timers_with_button.
  - set (w0 := World (with_pending (fun m => delete rid m) (self w))
                     (console w) (network w) (reactions w)).
    assert (Hself := save_chain_self rid c o w0).
    assert (Hstep := settle_step rid c o w Hc). fold w0 in Hstep.
    set (w1 := ((settle (save_chain rid c o)) w0).2) in *. clearbody w1.
    exists w1, (modify (with_clock (fun t => (t + dt)%N)) w1).2. eexists.
    split; [exact Hstep | ].
    assert (Harea : notificationArea (self w1) = Some (notification_of o)).
    { rewrite Hself. cbn [notificationArea with_timers].
      by rewrite !notificationArea_with_button. }
    assert (Htimers : timers (self w1) =
              timers (self w) ++ [((clock (self w) + 5000)%N, ClearNotifications)]).
    { rewrite Hself. cbn [timers with_timers]. by rewrite !timers_with_button. }
    assert (Hclock : clock (self w1) = clock (self w)).
    { rewrite Hself. cbn [clock with_timers]. by rewrite !clock_with_button. }
    split; [exact Harea | ]. split; [reflexivity | ]. split; [exact Harea | ].
    unfold step. rewrite modify_world. cbn [self timers clock with_clock].
    rewrite Htimers, (lookup_app_l_Some _ _ _ _ Hi), Hclock.
    destruct t.
    assert ((due <=? clock (self w) + dt)%N = true) as -> by (by apply N.leb_le).
    split; [reflexivity | ]. split; [reflexivity | ].
    cbn. by rewrite Htimers.
Qed.

Lemma stale_timer_wipes_banner_witness :
  let evs := [Submit jackett_settings_form;
              Settle 0 (Responded (Decoded saved_body)); Elapse 4000;
              Submit jackett_settings_form] in
  exists w w1 w2 w3,
    @run example_browser evs (@loaded example_browser admin_page) = Some w /\
    @step example_browser (Settle 1 (Responded (Decoded saved_body))) w = Some w1 /\
    notificationArea (self w1) = Some (alert (str "alert-success") (str "Saved")) /\
    @step example_browser (Elapse 1000) w1 = Some w2 /\
    @step example_browser (Timeout 0) w2 = Some w3 /\
    notificationArea (self w3) = Some [].
Proof.
  intros evs.
  assert (Hrun : exists w,
             @run example_browser evs (@loaded example_browser admin_page) = Some w /\
             pending (self w) !! 1 = Some (Closure jackett_settings_form (str "Save")) /\
             timers (self w) !! 0 = Some (5000%N, ClearNotifications) /\
             clock (self w) = 4000%N).
  { eexists. split; [vm_compute; reflexivity | ].
    split; [vm_compute; reflexivity | split; reflexivity]. }
  destruct Hrun as (w & Hrun & Hc & Hi & Hclock).
  destruct (@stale_timer_wipes_banner example_browser w 1 _
              (Responded (Decoded saved_body)) 0 _ _ 1000%N Hc Hi)
    as (_ & w1 & w2 & w3 & H1 & Ha1 & H2 & _ & H3 & Ha3 & _).
  - rewrite Hclock. by vm_compute.
  - exists w, w1, w2, w3.
    split; [exact Hrun | ]. split; [exact H1 | ]. split; [exact Ha1 | ].
    split; [exact H2 | ]. split; [exact H3 | exact Ha3].
Defined.

(** *** What a response turns into *)

Lemma settled_notification `{Browser} rid c o (w : world page) :
  pending (self w) !! rid = Some c ->
  exists w1,
    step (Settle rid o) w = Some w1 /\
    notificationArea (self w1) = Some (notification_of o) /\
    console w1 = console w ++ match caught o with
                              | Some e => [("Error:"%string, e)]
                              | None => []
                              end.
Proof.
  intros Hc. eexists. split; [by apply settle_step | ].
  rewrite save_chain_self, save_chain_console.
  cbn [notificationArea with_timers console].
  by rewrite !notificationArea_with_button.
Qed.

(** X15. For a decoded body other than [null], the template literal
    prints [message].  When that succeeds, the class of the banner
    follows the truthiness of [success], its text is the printed
    message, and nothing is logged: a backend that reports
    [success: false] gets its own message in an [alert-danger] banner,
    and a body without a message shows [undefined].  When printing
    throws, as for a message object with a [toString] entry, the
    [catch] callback writes the fallback banner and logs the error. *)
Theorem banner_follows_success `{Browser} (w : world page) rid c
    (body success message : value) :
  pending (self w) !! rid = Some c ->
  get body "success" = Ok success ->
  get body "message" = Ok message ->
  exists w1,
    step (Settle rid (Responded (Decoded body))) w = Some w1 /\
    match to_string message with
    | Ok text =>
        notificationArea (self w1) =
          Some (alert (if truthy success then str "alert-success"
                       else str "alert-danger") text) /\
        console w1 = console w
    | Throw e =>
        notificationArea (self w1) =
          Some (alert (str "alert-danger") fallback_message) /\
        console w1 = console w ++ [("Error:"%string, e)]
    end.
Proof.
  intros Hc Hs Hm.
  destruct (settled_notification rid c (Responded (Decoded body)) w Hc)
    as (w1 & Hstep & Ha & Hcon).
  exists w1. split; [exact Hstep | ].
  rewrite Ha, Hcon. unfold notification_of, caught. rewrite Hs, Hm.
  destruct (to_string message) as [text | e]; [ | done].
  split; [done | apply app_nil_r].
Qed.

Lemma banner_follows_success_witness :
  let w := (on_submit jackett_settings_form
              (@loaded example_browser admin_page)).2 in
  let body := Obj [(str "success", Bool false);
                   (str "message", Str (str "Jackett unreachable"))] in
  let unprintable := Obj [(str "toString", Num (S754_zero false))] in
  let body' := Obj [(str "success", Bool true); (str "message", unprintable)] in
  (exists w1,
     @step example_browser (Settle 0 (Responded (Decoded body))) w = Some w1 /\
     notificationArea (self w1) =
       Some (alert (str "alert-danger") (str "Jackett unreachable")) /\
     console w1 = []) /\
  (exists w1,
     @step example_browser (Settle 0 (Responded (Decoded body'))) w = Some w1 /\
     notificationArea (self w1) =
       Some (alert (str "alert-danger") fallback_message) /\
     console w1 =
       [("Error:"%string, TypeError "Cannot convert object to primitive value")]).
Proof.
  intros w body unprintable body'. split.
  - destruct (@banner_follows_success example_browser w 0
                (Closure jackett_settings_form (str "Save")) body
                (Bool false) (Str (str "Jackett unreachable")))
      as (w1 & Hstep & Ha & Hcon).
    + vm_compute. reflexivity.
    + reflexivity.
    + reflexivity.
    + exists w1. split; [exact Hstep | ]. split; [exact Ha | exact Hcon].
  - destruct (@banner_follows_success example_browser w 0
                (Closure jackett_settings_form (str "Save")) body'
                (Bool true) unprintable)
      as (w1 & Hstep & Ha & Hcon).
    + vm_compute. reflexivity.
    + reflexivity.
    + reflexivity.
    + exists w1. split; [exact Hstep | ]. split; [exact Ha | exact Hcon].
Defined.

(** X16. Bodies that are no objects: a boolean, a number, a string or an
    array has neither [success] nor [message], so the banner is
    [alert-danger] with the text [undefined] and nothing is logged; the
    body [null] makes [result.success] throw, which ends in the fallback
    banner with the TypeError on the console. *)
Theorem bodies_that_are_no_objects `{Browser} (w : world page) rid c :
  pending (self w) !! rid = Some c ->
  (forall body,
      no_named_properties body = true ->
      exists w1,
        step (Settle rid (Responded (Decoded body))) w = Some w1 /\
        notificationArea (self w1)
          = Some (alert (str "alert-danger") (str "undefined")) /\
        console w1 = console w) /\
  (exists w1,
      step (Settle rid (Responded (Decoded Null))) w = Some w1 /\
      notificationArea (self w1)
        = Some (alert (str "alert-danger") fallback_message) /\
      console w1 = console w
                   ++ [("Error:"%string, TypeError "Cannot read properties")]).
Proof.
  intros Hc. split.
  - intros body Hbody.
    destruct (settled_notification rid c (Responded (Decoded body)) w Hc)
      as (w1 & Hstep & Ha & Hcon).
    exists w1. split; [exact Hstep | ].
    destruct body; try discriminate Hbody;
      (split; [exact Ha | rewrite Hcon; apply app_nil_r]).
  - destruct (settled_notification rid c (Responded (Decoded Null)) w Hc)
      as (w1 & Hstep & Ha & Hcon).
    exists w1. split; [exact Hstep | ]. split; [exact Ha | exact Hcon].
Qed.

Lemma bodies_that_are_no_objects_witness :
  let w := (on_submit jackett_settings_form
              (@loaded example_browser admin_page)).2 in
  exists w1,
    @step example_browser (Settle 0 (Responded (Decoded (Arr [])))) w = Some w1 /\
    notificationArea (self w1)
      = Some (alert (str "alert-danger") (str "undefined")).
Proof.
  intros w.
  destruct (@bodies_that_are_no_objects example_browser w 0
              (Closure jackett_settings_form (str "Save")))
    as (Hplain & _).
  - vm_compute. reflexivity.
  - destruct (Hplain (Arr []) eq_refl) as (w1 & Hstep & Ha & _).
    exists w1. split; [exact Hstep | exact Ha].
Defined.

(** *** What a click can change *)

Lemma first_match_first `{Browser} sel (es : list element) : forall (i t : nat),
  first_match sel i es = Some t ->
  i <= t /\
  (exists e, es !! (t - i) = Some e /\ selector_matches sel e = true) /\
  (forall (j : nat) e, j < t - i -> es !! j = Some e ->
                       selector_matches sel e = false).
Proof.
  induction es as [ | x es IH]; intros i t; simpl; [done | ].
  destruct (selector_matches sel x) eqn:Hx.
  - intros [= <-]. split; [lia | ]. rewrite Nat.sub_diag.
    split; [by exists x | intros j e Hj; lia].
  - intros Hm. destruct (IH _ _ Hm) as (Hle & (e & He & Hme) & Hbefore).
    split; [lia | ].
    replace (t - i) with (Datatypes.S (t - Datatypes.S i)) by lia.
    split; [by exists e | ].
    intros [ | j] e' Hj He'.
    + by injection He' as <-.
    + apply (Hbefore j e'); [lia | done].
Qed.

(** X17. A click on a toggle writes at most one inline display: that of
    the first element, in document order, that the toggle's selector
    matches, which becomes [block] if it was [none] and [none]
    otherwise.  The inline display of every other element and the tag
    of every element stay as they were, nothing is logged and nothing is
    sent; when the selector is invalid or matches nothing, no inline
    display changes at all. *)
Theorem click_changes_one_display `{Browser} (toggle : nat) (w : world page) :
  let w' := (toggle_click toggle w).2 in
  let sel := target_of toggle (self w) in
  console w' = console w /\ network w' = network w /\ reactions w' = reactions w /\
  tagName <$> elements (self w') = tagName <$> elements (self w) /\
  match (if selector_valid sel then first_match sel 0 (elements (self w))
         else None) with
  | None => display <$> elements (self w') = display <$> elements (self w)
  | Some t =>
      exists e,
        elements (self w) !! t = Some e /\
        selector_matches sel e = true /\
        (forall (j : nat) e', j < t -> elements (self w) !! j = Some e' ->
                              selector_matches sel e' = false) /\
        display <$> elements (self w') =
          <[t := if bool_decide (display e = str "none")
                 then str "block" else str "none"]> (display <$> elements (self w))
  end.
Proof.
  intros w' sel. subst w'.
  destruct (selector_valid sel) eqn:Hvalid.
  2:{ by rewrite (toggle_click_invalid toggle w Hvalid). }
  destruct (first_match sel 0 (elements (self w))) as [t | ] eqn:Hfirst.
  2:{ by rewrite (toggle_click_missing toggle w Hvalid Hfirst). }
  destruct (first_match_first sel _ 0 t Hfirst) as (_ & (e & He & Hm) & Hbefore).
  rewrite Nat.sub_0_r in He, Hbefore.
  rewrite (toggle_click_found toggle t e w Hvalid Hfirst He). cbn [snd].
  assert (Hes : elements (with_elements (fun es => <[t := flipped e]> es) (self w))
                = <[t := flipped e]> (elements (self w)))
    by (by destruct w as [[] ? ? ?]).
  cbn [self console network reactions]. rewrite Hes.
  repeat (split; [done | ]). split.
  - rewrite list_fmap_insert. apply list_insert_id.
    by rewrite list_lookup_fmap, He.
  - exists e. repeat (split; [done | ]). by rewrite list_fmap_insert.
Qed.

Lemma click_changes_one_display_witness :
  let w := @loaded example_browser (season_page (str "#season-1") (str "flex")) in
  let w' := (@toggle_click example_browser 0 w).2 in
  tagName <$> elements (self w') = tagName <$> elements (self w) /\
  display <$> elements (self w) !! 1 = Some (str "flex") /\
  display <$> elements (self w') !! 1 = Some (str "none").
Proof.
  intros w w'.
  split; [ | split; reflexivity].
  exact (proj1 (proj2 (proj2 (proj2
          (@click_changes_one_display example_browser 0 w))))).
Defined.

End PageExtras.
